(** * RodioLabs oracle node: aggregation, reputation, staking and metrics

    A shallow embedding of the consensus core of the node
    ([src/core/aggregator.py], [src/core/node.py]), of the reputation and
    staking components ([src/security/reputation.py],
    [src/security/staking.py]), of the metrics collector
    ([src/monitoring/metrics.py]) and of the submission path of the
    contract handler ([src/blockchain/contract_handler.py]).

    The sensor values handled by the aggregator, the node and the
    contract handler are Python [float]s: they are modelled as binary64
    numbers, Rocq's primitive [float]s, with the operations of the
    source, each rounded as the interpreter rounds it; not-a-number and
    the infinities are values like the others.  Reputation and
    confidence scores, histogram samples and clock readings of the cache
    are idealised as exact rationals ([Q]): what is proved of them are
    bounds kept by a clamp, orders and counts, on which the rounding of
    a sum has no influence.  Python's [int] is [Z].  Dictionaries are [gmap]s keyed by
    strings, lists are lists. *)

From Stdlib Require Import QArith Qabs Qround Qpower ZArith List Lia Lqa.
From Stdlib Require Import Floats.
From Stdlib Require Import Sorting.Sorted Sorting.Permutation.
From stdpp Require Import base gmap strings list fin_maps.

Local Open Scope Q_scope.

(** Decimal constants of the source ([0.1], [1.5], [0.05], [0.8]) stand
    for the nearest binary64 number, as they do in Python. *)
Set Warnings "-inexact-float".

(** ** Python built-ins used by the sources, on integers, lists and
    rationals *)

Module Py.

(** [a < b] on rationals, as a boolean. *)
Definition Qlt_bool (a b : Q) : bool := negb (Qle_bool b a).

(** [max(a, b)]: the first argument unless the second is strictly larger. *)
Definition max (a b : Q) : Q := if Qlt_bool a b then b else a.

(** [min(a, b)]: the first argument unless the second is strictly smaller. *)
Definition min (a b : Q) : Q := if Qlt_bool b a then b else a.

(** Truncation toward zero: [int(x)] on the rational a float stands
    for. *)
Definition int (x : Q) : Z := Z.quot (Qnum x) (Zpos (Qden x)).

(** [len(l)] as a Python integer. *)
Definition len {A : Type} (l : list A) : Z := Z.of_nat (List.length l).

(** Insertion into a sorted list, in front of the first element that is
    not smaller: equal elements keep their input order. *)
Fixpoint insert_sorted (x : Q) (l : list Q) : list Q :=
  match l with
  | [] => [x]
  | y :: l' => if Qle_bool x y then x :: y :: l' else y :: insert_sorted x l'
  end.

(** [sorted(values)]: a stable ascending sort. *)
Definition sorted (values : list Q) : list Q :=
  fold_right insert_sorted [] values.

(** [l[i]] for a Python integer index: negative indices count from the
    end, and an index outside the list raises [IndexError] ([None]). *)
Definition index {A : Type} (l : list A) (i : Z) : option A :=
  if (0 <=? i)%Z then nth_error l (Z.to_nat i)
  else if (0 <=? len l + i)%Z then nth_error l (Z.to_nat (len l + i))
  else None.

(** [l[-k:]] for a positive [k]: the last [k] elements. *)
Definition last_n {A : Type} (k : nat) (l : list A) : list A :=
  skipn (List.length l - k) l.

End Py.

(** ** Python's binary64 floats *)

Module PyFloat.

(** [float(n)] for an integer: the nearest binary64 number. *)
Definition of_int (n : Z) : float :=
  SF2Prim (binary_normalize prec emax n 0 false).

(** [a / b] on two integers: the binary64 number nearest to the rational
    [a / b], computed on the fraction in lowest terms (the value depends
    on the rational only; numerator and denominator below [2 ^ 53], as
    list lengths are, convert exactly).  [None] stands for the
    [ZeroDivisionError]. *)
Definition truediv (a b : Z) : option float :=
  if (b =? 0)%Z then None
  else
    let q := Qred (Qmake (Z.sgn b * a) (Z.to_pos (Z.abs b))) in
    Some (of_int (Qnum q) / of_int (Zpos (Qden q)))%float.

(** The rational number a finite float stands for; [None] for
    not-a-number and the infinities. *)
Definition to_Q (x : float) : option Q :=
  match Prim2SF x with
  | S754_zero _ => Some 0
  | S754_finite s m e =>
      Some match e with
           | Zneg p => Qmake (cond_Zopp s (Zpos m)) (Pos.pow 2 p)
           | _ => inject_Z (cond_Zopp s (Zpos m) * 2 ^ e)
           end
  | S754_infinity _ | S754_nan => None
  end.

(** [int(x)] on a float: truncation toward zero; [None] stands for the
    [ValueError] raised on not-a-number and the [OverflowError] raised on
    an infinity. *)
Definition int (x : float) : option Z :=
  match to_Q x with
  | Some q => Some (Py.int q)
  | None => None
  end.

(** [max(a, b)]: the first argument unless the second is strictly larger. *)
Definition max (a b : float) : float := if (a <? b)%float then b else a.

(** Insertion into a sorted list, in front of the first element that is
    not smaller: equal elements keep their input order. *)
Fixpoint insert_sorted (x : float) (l : list float) : list float :=
  match l with
  | [] => [x]
  | y :: l' => if (x <=? y)%float then x :: y :: l' else y :: insert_sorted x l'
  end.

(** The stable ascending sort of a list of floats. *)
Definition stable_sort (values : list float) : list float :=
  fold_right insert_sorted [] values.

(** [a <= b] on floats, as a proposition. *)
Definition le (a b : float) : Prop := (a <=? b)%float = true.

(** The lists without not-a-number. *)
Definition no_nan (l : list float) : Prop := Forall (fun x => is_nan x = false) l.

(** [sorted(values)] on floats.  A comparison with not-a-number is
    always false, and the order in which [sorted] then leaves the list
    depends on the comparisons the interpreter's algorithm happens to
    make.  The sort is therefore a parameter of the model, known by what
    the language guarantees: the result is a rearrangement of the
    argument, and it is the stable ascending sort when no element is
    not-a-number. *)
Class Sorting := {
  sorted : list float -> list float;
  sorted_permutation : forall l, Permutation (sorted l) l;
  sorted_without_nan :
    forall l, no_nan l -> sorted l = stable_sort l
}.

End PyFloat.

(** ** The bit-level description of binary64 numbers

    The primitive operations are specified by the Standard Library on
    [spec_float], a sign, a mantissa and an exponent; the two functions
    below read the order and the finiteness of a number off that
    description. *)

Module Binary64.

(** The place of a number that is not not-a-number in the order of the
    floats, as a triple of integers compared lexicographically. *)
Definition rank (x : spec_float) : Z * Z * Z :=
  match x with
  | S754_infinity true => (-2, 0, 0)%Z
  | S754_finite true m e => (-1, - e, - Zpos m)%Z
  | S754_zero _ | S754_nan => (0, 0, 0)%Z
  | S754_finite false m e => (1, e, Zpos m)%Z
  | S754_infinity false => (2, 0, 0)%Z
  end.

Definition rank_le (a b : Z * Z * Z) : Prop :=
  let '(k1, e1, m1) := a in
  let '(k2, e2, m2) := b in
  (k1 < k2 \/ (k1 = k2 /\ (e1 < e2 \/ (e1 = e2 /\ m1 <= m2))))%Z.

(** The zeros and the finite numbers. *)
Definition finite_spec (x : spec_float) : bool :=
  match x with
  | S754_zero _ | S754_finite _ _ _ => true
  | S754_infinity _ | S754_nan => false
  end.

End Binary64.

(** ** [statistics.median] *)

Module Statistics.

Import PyFloat.

(** [statistics.median(data)]: the middle element of the sorted data, or
    the mean [(a + b) / 2] of the two middle elements; [None] stands for
    the [StatisticsError] raised on empty data. *)
Definition median {sorting : Sorting} (data : list float) : option float :=
  let s := sorted data in
  let n := List.length s in
  if Nat.eqb n 0 then None
  else if Nat.odd n then nth_error s (n / 2)
  else match nth_error s (n / 2 - 1), nth_error s (n / 2) with
       | Some a, Some b => Some ((a + b) / 2)%float
       | _, _ => None
       end.

End Statistics.

(** ** The aggregator ([src/core/aggregator.py]) *)

Module Aggregator.

Import PyFloat.

Record SensorReading := {
  value : float;
  timestamp : Z;
  node_id : string;
  signature : string
}.

(** The fields set by [DataAggregator.__init__]. *)
Record DataAggregator := {
  consensus_threshold : float;
  outlier_tolerance : float;
  min_nodes : Z
}.

(** The defaults of [consensus_config.get]. *)
Definition default_aggregator : DataAggregator :=
  {| consensus_threshold := 0.8; outlier_tolerance := 0.05; min_nodes := 3 |}.

(** The exceptions [aggregate_readings] can raise. *)
Inductive AggregationError :=
| ValueError_min_nodes        (* ValueError("Minimum ... noeuds requis") *)
| ConsensusError_outliers     (* ConsensusError("Trop d'outliers ...") *)
| ConsensusError_no_consensus (* ConsensusError("Pas de consensus ...") *)
| ValueError_empty_max        (* max() of an empty sequence *)
| StatisticsError_no_median.  (* statistics.median of empty data *)

(** The two exception classes of the source. *)
Definition is_ValueError (e : AggregationError) : bool :=
  match e with
  | ValueError_min_nodes | ValueError_empty_max => true
  | _ => false
  end.

Definition is_ConsensusError (e : AggregationError) : bool :=
  match e with
  | ConsensusError_outliers | ConsensusError_no_consensus => true
  | _ => false
  end.

(** [validate_signatures]: keeps the readings whose signature has 64
    characters, in order. *)
Definition signature_ok (r : SensorReading) : bool :=
  Nat.eqb (String.length (signature r)) 64.

Definition validate_signatures (readings : list SensorReading) : list SensorReading :=
  List.filter signature_ok readings.

(** The membership test [lower_bound <= v <= upper_bound] of the list
    comprehension of [remove_outliers]. *)
Definition within_bounds (lower_bound upper_bound v : float) : bool :=
  (lower_bound <=? v)%float && (v <=? upper_bound)%float.

(** [max(r.timestamp for r in readings)]. *)
Definition max_timestamp (readings : list SensorReading) : option Z :=
  match readings with
  | [] => None
  | r :: rs => Some (fold_left (fun m r' => if (m <? timestamp r')%Z then timestamp r' else m) rs (timestamp r))
  end.

(** The dictionary returned by [aggregate_readings]. *)
Record AggregationResult := {
  res_value : float;
  res_timestamp : Z;
  res_confidence : float;
  res_nodes_participated : Z;
  res_outliers_removed : Z
}.

Section WithSorting.

Context {sorting : Sorting}.

(** [remove_outliers].  The indices [n // 4] and [3 * n // 4] are inside
    the sorted list and float arithmetic does not raise, so the [except]
    branch (modelled by returning [values]) is never taken. *)
Definition remove_outliers (values : list float) : list float :=
  if (List.length values <? 4)%nat then values
  else
    let sorted_values := sorted values in
    let n := List.length sorted_values in
    let q1_idx := (n / 4)%nat in
    let q3_idx := (3 * n / 4)%nat in
    match nth_error sorted_values q1_idx, nth_error sorted_values q3_idx with
    | Some q1, Some q3 =>
        let iqr := (q3 - q1)%float in
        let lower_bound := (q1 - 1.5 * iqr)%float in
        let upper_bound := (q3 + 1.5 * iqr)%float in
        let filtered := List.filter (within_bounds lower_bound upper_bound) values in
        match filtered with
        | [] => values
        | _ => filtered
        end
    | _, _ => values
    end.

(** The tolerance computed inside [check_consensus]. *)
Definition consensus_tolerance (self : DataAggregator) (median : float) : float :=
  if (median =? 0)%float then 0.1%float
  else abs (median * outlier_tolerance self).

(** The list [within_threshold] of [check_consensus]. *)
Definition within_threshold (self : DataAggregator) (median : float) (values : list float)
  : list float :=
  let threshold := consensus_tolerance self median in
  List.filter (fun v => (abs (v - median) <=? threshold)%float) values.

(** The value [consensus_ratio] of [check_consensus]. *)
Definition consensus_ratio (self : DataAggregator) (median : float) (values : list float)
  : option float :=
  truediv (Py.len (within_threshold self median values)) (Py.len values).

(** [check_consensus]; an exception is caught and gives [False]. *)
Definition check_consensus (self : DataAggregator) (values : list float) : bool :=
  match values with
  | [] => false
  | [_] => true
  | _ =>
      match Statistics.median values with
      | None => false
      | Some median =>
          match consensus_ratio self median values with
          | None => false
          | Some ratio => (consensus_threshold self <=? ratio)%float
          end
      end
  end.

(** [calculate_confidence] goes through [statistics.mean],
    [statistics.variance] and a square root; it is a parameter of the
    model. *)
Variable calculate_confidence : list float -> float.

(** [aggregate_readings]. *)
Definition aggregate_readings (self : DataAggregator) (readings : list SensorReading)
  : AggregationError + AggregationResult :=
  if (Py.len readings <? min_nodes self)%Z then inl ValueError_min_nodes
  else
    let validated_readings := validate_signatures readings in
    let values := map value validated_readings in
    let filtered_values := remove_outliers values in
    if (Py.len filtered_values <? min_nodes self)%Z then inl ConsensusError_outliers
    else if negb (check_consensus self filtered_values) then inl ConsensusError_no_consensus
    else
      match Statistics.median filtered_values with
      | None => inl StatisticsError_no_median
      | Some final_value =>
          match max_timestamp validated_readings with
          | None => inl ValueError_empty_max
          | Some ts =>
              inr {| res_value := final_value;
                     res_timestamp := ts;
                     res_confidence := calculate_confidence filtered_values;
                     res_nodes_participated := Py.len validated_readings;
                     res_outliers_removed := (Py.len values - Py.len filtered_values)%Z |}
          end
      end.

End WithSorting.

(** The test [abs(reading.value - median) > threshold] of
    [detect_malicious_nodes], with [threshold = abs(median * 0.1)]. *)
Definition deviates (median : float) (reading : SensorReading) : bool :=
  (abs (median * 0.1) <? abs (value reading - median))%float.

(** [detect_malicious_nodes].  The median exists on three readings or
    more, so the [None] case is not reached. *)
Definition detect_malicious_nodes {sorting : Sorting} (readings : list SensorReading)
  : list string :=
  if (List.length readings <? 3)%nat then []
  else
    match Statistics.median (map value readings) with
    | None => []
    | Some median => map node_id (List.filter (deviates median) readings)
    end.

End Aggregator.

(** ** The reputation system ([src/security/reputation.py]) *)

Module Reputation.

Record ReputationEvent := {
  ev_node_id : string;
  ev_event_type : string;
  ev_impact : Q;
  ev_timestamp : Z;
  ev_details : list (string * string)
}.

Record ReputationSystem := {
  node_reputations : gmap string Q;
  reputation_events : list ReputationEvent;
  reputation_weights : gmap string Q;
  min_reputation : Q;
  max_reputation : Q;
  default_reputation : Q;
  decay_rate : Q
}.

(** The entries of [reputation_weights], as [__init__] writes them. *)
Definition weight_table : list (string * Q) :=
  [ ("consensus_success"%string, 5 # 100);
    ("consensus_failure"%string, - (1 # 10));
    ("data_quality_high"%string, 3 # 100);
    ("data_quality_low"%string, - (5 # 100));
    ("uptime_good"%string, 2 # 100);
    ("uptime_poor"%string, - (8 # 100));
    ("malicious_behavior"%string, - (5 # 10));
    ("stake_increase"%string, 1 # 10);
    ("stake_slash"%string, - (3 # 10)) ].

Definition initial_weights : gmap string Q := list_to_map weight_table.

(** [ReputationSystem()]. *)
Definition init : ReputationSystem :=
  {| node_reputations := ∅;
     reputation_events := [];
     reputation_weights := initial_weights;
     min_reputation := 0;
     max_reputation := 1;
     default_reputation := 8 # 10;
     decay_rate := 1 # 1000 |}.

Definition set_node_reputations (self : ReputationSystem) (m : gmap string Q)
  : ReputationSystem :=
  {| node_reputations := m;
     reputation_events := reputation_events self;
     reputation_weights := reputation_weights self;
     min_reputation := min_reputation self;
     max_reputation := max_reputation self;
     default_reputation := default_reputation self;
     decay_rate := decay_rate self |}.

Definition set_reputation_events (self : ReputationSystem) (l : list ReputationEvent)
  : ReputationSystem :=
  {| node_reputations := node_reputations self;
     reputation_events := l;
     reputation_weights := reputation_weights self;
     min_reputation := min_reputation self;
     max_reputation := max_reputation self;
     default_reputation := default_reputation self;
     decay_rate := decay_rate self |}.

(** [get_reputation]: an unknown node is first stored with the default
    reputation. *)
Definition get_reputation (self : ReputationSystem) (node_id : string)
  : Q * ReputationSystem :=
  match node_reputations self !! node_id with
  | Some r => (r, self)
  | None =>
      (default_reputation self,
       set_node_reputations self (<[node_id := default_reputation self]> (node_reputations self)))
  end.

(** The clamp [max(self.min_reputation, min(self.max_reputation, x))]. *)
Definition clamp (self : ReputationSystem) (x : Q) : Q :=
  Py.max (min_reputation self) (Py.min (max_reputation self) x).

(** [update_reputation]; [now] is [int(time.time())] and [details] the
    optional dictionary. *)
Definition update_reputation (self : ReputationSystem) (node_id event_type : string)
    (details : option (list (string * string))) (now : Z) : ReputationSystem :=
  match reputation_weights self !! event_type with
  | None => self
  | Some impact =>
      let '(current_reputation, self1) := get_reputation self node_id in
      let new_reputation := clamp self1 (current_reputation + impact) in
      let event := {| ev_node_id := node_id;
                      ev_event_type := event_type;
                      ev_impact := impact;
                      ev_timestamp := now;
                      ev_details := default [] details |} in
      let self2 := set_reputation_events self1 (reputation_events self1 ++ [event]) in
      set_node_reputations self2 (<[node_id := new_reputation]> (node_reputations self2))
  end.

(** The new value [apply_time_decay] stores for one node. *)
Definition decayed (self : ReputationSystem) (current_rep : Q) : Q :=
  let target := 1 # 2 in
  let decay_amount := decay_rate self * (current_rep - target) in
  let new_reputation := current_rep - decay_amount in
  clamp self new_reputation.

(** [apply_time_decay]: every stored reputation is replaced. *)
Definition apply_time_decay (self : ReputationSystem) : ReputationSystem :=
  set_node_reputations self (decayed self <$> node_reputations self).

(** The calls that change a reputation system. *)
Inductive call :=
| CallGet (node_id : string)
| CallUpdate (node_id event_type : string) (details : option (list (string * string))) (now : Z)
| CallDecay.

Definition step (self : ReputationSystem) (c : call) : ReputationSystem :=
  match c with
  | CallGet n => snd (get_reputation self n)
  | CallUpdate n e d t => update_reputation self n e d t
  | CallDecay => apply_time_decay self
  end.

(** A sequence of calls on a fresh system. *)
Definition run (calls : list call) : ReputationSystem := fold_left step calls init.

End Reputation.

(** ** The staking manager ([src/security/staking.py]) *)

Module Staking.

(** The dictionary appended to [slash_events]. *)
Record SlashEvent := {
  se_node_address : string;
  se_amount : Z;
  se_reason : string;
  se_timestamp : Z;
  se_tx_hash : string
}.

Record StakingManager := {
  min_stake : Z;
  slash_events : list SlashEvent;
  reputation_scores : gmap string Q
}.

(** What one call of [slash_node] obtains from outside the manager: the
    two [random.randint] draws of the simulated vote, the stake returned
    by [get_node_stake], the outcome of [web3.send_transaction] ([None]
    when it raises) and the clock. *)
Record World := {
  votes_for : Z;
  votes_against : Z;
  node_stake : string -> Z;
  send_transaction : option string;
  now : Z
}.

Definition auto_slash_reasons : list string :=
  [ "data_manipulation"; "double_spending"; "malicious_consensus"; "stake_below_minimum" ]%string.

(** [reason in auto_slash_reasons]. *)
Definition is_auto_slash_reason (reason : string) : bool :=
  existsb (String.eqb reason) auto_slash_reasons.

(** The outcome of the simulated vote; a division by zero is caught and
    gives [False]. *)
Definition vote_approves (w : World) : bool :=
  let total := (votes_for w + votes_against w)%Z in
  if (total =? 0)%Z then false
  else Qle_bool (75 # 100) (inject_Z (votes_for w) / inject_Z total).

(** [is_consensus_slashing]. *)
Definition is_consensus_slashing (w : World) (target_node reason : string) : bool :=
  if is_auto_slash_reason reason then true else vote_approves w.

(** [update_reputation_score]. *)
Definition update_reputation_score (self : StakingManager) (node_address : string) (delta : Q)
  : StakingManager :=
  let current_score := default 1 (reputation_scores self !! node_address) in
  let new_score := Py.max 0 (Py.min 1 (current_score + delta)) in
  {| min_stake := min_stake self;
     slash_events := slash_events self;
     reputation_scores := <[node_address := new_score]> (reputation_scores self) |}.

(** [get_reputation_score]. *)
Definition get_reputation_score (self : StakingManager) (node_address : string) : Q :=
  default 1 (reputation_scores self !! node_address).

(** The amount actually slashed: the request, or the whole stake when the
    stake is smaller. *)
Definition capped_amount (w : World) (malicious_node : string) (amount : Z) : Z :=
  let current_stake := node_stake w malicious_node in
  if (current_stake <? amount)%Z then current_stake else amount.

(** [slash_node]: the returned boolean and the manager afterwards. *)
Definition slash_node (self : StakingManager) (w : World)
    (malicious_node : string) (amount : Z) (reason : string) : bool * StakingManager :=
  if negb (is_consensus_slashing w malicious_node reason) then (false, self)
  else
    let amount := capped_amount w malicious_node amount in
    match send_transaction w with
    | None => (false, self)
    | Some tx_hash =>
        let slash_event := {| se_node_address := malicious_node;
                              se_amount := amount;
                              se_reason := reason;
                              se_timestamp := now w;
                              se_tx_hash := tx_hash |} in
        let self1 := {| min_stake := min_stake self;
                        slash_events := slash_events self ++ [slash_event];
                        reputation_scores := reputation_scores self |} in
        (true, update_reputation_score self1 malicious_node (- (2 # 10)))
    end.

End Staking.

(** ** Histograms of the metrics collector ([src/monitoring/metrics.py]) *)

Module Metrics.

(** The part of [MetricsCollector] the histogram methods touch. *)
Record MetricsCollector := {
  histograms : gmap string (list Q)
}.

(** [MetricsCollector()]. *)
Definition init : MetricsCollector := {| histograms := ∅ |}.

(** Order of [sorted(labels.items())]: pairs of strings, compared
    lexicographically. *)
Definition item_leb (a b : string * string) : bool :=
  match String.compare (fst a) (fst b) with
  | Lt => true
  | Gt => false
  | Eq => String.leb (snd a) (snd b)
  end.

Fixpoint insert_item (x : string * string) (l : list (string * string)) :=
  match l with
  | [] => [x]
  | y :: l' => if item_leb x y then x :: y :: l' else y :: insert_item x l'
  end.

(** [_labels_to_string]. *)
Definition labels_to_string (labels : list (string * string)) : string :=
  match labels with
  | [] => ""%string
  | _ =>
      let sorted_labels := fold_right insert_item [] labels in
      String.concat "_" (map (fun kv => (fst kv ++ "=" ++ snd kv)%string) sorted_labels)
  end.

(** The key of [record_histogram] and [increment_counter]; [labels] is the
    optional dictionary, given by its items. *)
Definition metric_key (name : string) (labels : option (list (string * string))) : string :=
  match labels with
  | None | Some [] => name
  | Some l => (name ++ "_" ++ labels_to_string l)%string
  end.

(** [record_histogram]. *)
Definition record_histogram (self : MetricsCollector) (name : string) (value : Q)
    (labels : option (list (string * string))) : MetricsCollector :=
  let key := metric_key name labels in
  let appended := default [] (histograms self !! key) ++ [value] in
  let kept := if (1000 <? List.length appended)%nat then Py.last_n 1000 appended else appended in
  {| histograms := <[key := kept]> (histograms self) |}.

(** [get_percentile]; [None] stands for the [IndexError] of an index
    below [-len(values)]. *)
Definition get_percentile (self : MetricsCollector) (histogram_name : string) (percentile : Q)
  : option Q :=
  match histograms self !! histogram_name with
  | None => Some 0
  | Some samples =>
      let values := Py.sorted samples in
      match values with
      | [] => Some 0
      | _ =>
          let index := Py.int ((percentile / 100) * inject_Z (Py.len values)) in
          let index := Z.min index (Py.len values - 1) in
          Py.index values index
      end
  end.

(** One recorded sample. *)
Record sample := {
  s_name : string;
  s_value : Q;
  s_labels : option (list (string * string))
}.

(** A sequence of [record_histogram] calls on a fresh collector. *)
Definition record_all (samples : list sample) : MetricsCollector :=
  fold_left (fun self s => record_histogram self (s_name s) (s_value s) (s_labels s)) samples init.

(** The values recorded under one key, oldest first. *)
Definition recorded_under (key : string) (samples : list sample) : list Q :=
  map s_value (List.filter (fun s => String.eqb (metric_key (s_name s) (s_labels s)) key) samples).

End Metrics.

(** ** The node's use of the aggregator ([src/core/node.py]) *)

Module Node.

Import Aggregator.

(** The arguments of one call of [contract_handler.submit_data_async]. *)
Record Submission := {
  sub_sensor_id : string;
  sub_value : float;
  sub_timestamp : Z
}.

(** The counters of [self.metrics] that [process_consensus] updates. *)
Record NodeMetrics := {
  successful_submissions : Z;
  consensus_failures : Z
}.

Section ProcessConsensus.

Context {sorting : PyFloat.Sorting}.

Variable calculate_confidence : list float -> float.

(** The outcome of [submit_data_async]: a transaction hash, or [None]
    when it raises. *)
Variable submit_data_async : Submission -> option string.

(** [process_consensus]: the counters afterwards and the submissions
    that were issued to the ledger. *)
Definition process_consensus (aggregator : DataAggregator) (metrics : NodeMetrics)
    (sensor_name : string) (readings : list SensorReading)
  : NodeMetrics * list Submission :=
  let failed := {| successful_submissions := successful_submissions metrics;
                   consensus_failures := (consensus_failures metrics + 1)%Z |} in
  match aggregate_readings calculate_confidence aggregator readings with
  | inl _ => (failed, [])
  | inr aggregated_data =>
      let call := {| sub_sensor_id := sensor_name;
                     sub_value := res_value aggregated_data;
                     sub_timestamp := res_timestamp aggregated_data |} in
      match submit_data_async call with
      | Some _ =>
          ({| successful_submissions := (successful_submissions metrics + 1)%Z;
              consensus_failures := consensus_failures metrics |}, [call])
      | None => (failed, [call])
      end
  end.

End ProcessConsensus.

End Node.

(** ** Sample inputs *)

Module Samples.

Import Aggregator.

(** A signature of 64 characters, the length of a SHA-256 digest in
    hexadecimal. *)
Definition sig64 : string :=
  "0123456789abcdef0123456789abcdef0123456789abcdef0123456789abcdef".

(** A reading with a well-formed signature. *)
Definition signed (v : float) (node : string) : SensorReading :=
  {| value := v; timestamp := 1700000000; node_id := node; signature := sig64 |}.

(** A reading whose signature is rejected, as the peer readings built by
    [collect_peer_readings] are. *)
Definition unsigned (v : float) (node : string) : SensorReading :=
  {| value := v; timestamp := 1700000000; node_id := node;
     signature := "simulated_signature" |}.

(** A confidence function to run the aggregator with. *)
Definition full_confidence (values : list float) : float := 1.

(** An aggregator that asks for four nodes. *)
Definition four_nodes : DataAggregator :=
  {| consensus_threshold := 0.8; outlier_tolerance := 0.05; min_nodes := 4 |}.

(** Four signed readings, one of them away from the others. *)
Definition one_low_reading : list SensorReading :=
  [signed 0 "node_1"; signed 10 "node_2"; signed 10 "node_3"; signed 10 "node_4"].

(** Three readings, the peer's one with a rejected signature. *)
Definition one_bad_signature : list SensorReading :=
  [signed 23 "node_1"; signed 23.1 "node_2"; unsigned 23.05 "peer_8001"].

(** Scenario S4: two signed readings. *)
Definition two_readings : list SensorReading :=
  [signed 23 "node_1"; signed 23.1 "node_2"].

(** A ledger that accepts every submission. *)
Definition accepting_ledger (call : Node.Submission) : option string := Some "0xtx"%string.

Definition fresh_metrics : Node.NodeMetrics :=
  {| Node.successful_submissions := 0; Node.consensus_failures := 0 |}.

(** A staking manager with the default minimum stake and no history. *)
Definition fresh_manager : Staking.StakingManager :=
  {| Staking.min_stake := 1000000000000000000000;
     Staking.slash_events := [];
     Staking.reputation_scores := ∅ |}.

(** A call of [slash_node] during which the transaction is refused. *)
Definition failing_transaction : Staking.World :=
  {| Staking.votes_for := 5;
     Staking.votes_against := 0;
     Staking.node_stake := fun _ => 2000000000000000000000%Z;
     Staking.send_transaction := None;
     Staking.now := 1700000000 |}.


(** Two latency samples recorded under one histogram name. *)
Definition two_latencies : list Metrics.sample :=
  [ {| Metrics.s_name := "blockchain_latency_ms"; Metrics.s_value := 1; Metrics.s_labels := None |};
    {| Metrics.s_name := "blockchain_latency_ms"; Metrics.s_value := 2; Metrics.s_labels := None |} ].

End Samples.

(** ** The aggregator's confidence score

    The score is studied on values idealised as rationals:
    [statistics.mean] and [statistics.variance] work on exact fractions,
    the square root is a parameter, and the bounds of the score come
    from the final clamp. *)

Module AggregatorScores.

(** [sum(data)]. *)
Definition sum (data : list Q) : Q := fold_left Qplus data 0.

(** [statistics.mean]; [None] stands for the [StatisticsError] on empty
    data. *)
Definition mean (data : list Q) : option Q :=
  match data with
  | [] => None
  | _ => Some (sum data / inject_Z (Py.len data))
  end.

(** [statistics.variance], the sample variance; [None] stands for the
    [StatisticsError] on fewer than two data points. *)
Definition variance (data : list Q) : option Q :=
  if (List.length data <? 2)%nat then None
  else
    match mean data with
    | None => None
    | Some c =>
        Some (sum (map (fun x => (x - c) * (x - c)) data) / inject_Z (Py.len data - 1))
    end.

Section Confidence.

(** The floating-point square root [variance ** 0.5]. *)
Variable sqrt : Q -> Q.

(** [calculate_confidence]; the [except] branch returns 0.5. *)
Definition calculate_confidence (values : list Q) : Q :=
  if (List.length values <=? 1)%nat then 1
  else
    match mean values, variance values with
    | Some mean_val, Some var =>
        let cv := if Qeq_bool mean_val 0 then 0 else sqrt var / Qabs mean_val in
        Py.max 0 (Py.min 1 (1 - cv))
    | _, _ => 1 # 2
    end.

End Confidence.

End AggregatorScores.

(** ** The node's consensus window ([src/core/node.py]) *)

Module NodeWindow.

Import Aggregator.

(** [peer_url.split(':')[-1]]: what follows the last colon (character
    58). *)
Fixpoint last_segment_from (current s : string) : string :=
  match s with
  | EmptyString => current
  | String c s' =>
      if Ascii.eqb c (Ascii.ascii_of_nat 58) then last_segment_from EmptyString s'
      else last_segment_from (current ++ String c EmptyString) s'
  end.

Definition last_segment (s : string) : string := last_segment_from EmptyString s.

(** One simulated answer of a peer: its URL, the simulated value and the
    clock when it is built. *)
Record PeerAnswer := {
  peer_url : string;
  simulated_value : float;
  answered_at : Z
}.

(** [collect_peer_readings]: one reading per peer, all with the same
    placeholder signature. *)
Definition collect_peer_readings (peers : list PeerAnswer) : list SensorReading :=
  map (fun p => {| value := simulated_value p;
                   timestamp := answered_at p;
                   node_id := ("peer_" ++ last_segment (peer_url p))%string;
                   signature := "simulated_signature" |}) peers.

Section ConsensusStep.

Context {sorting : PyFloat.Sorting}.

Variable calculate_confidence : list float -> float.
Variable submit_data_async : Node.Submission -> option string.

(** The end of [process_sensor_reading]: the node's own reading is added
    to the peer readings and, with enough readings, consensus is
    processed.  The aggregator is built from the same configuration
    entry [consensus.min_nodes] that is tested here. *)
Definition consensus_step (aggregator : DataAggregator) (metrics : Node.NodeMetrics)
    (sensor_name : string) (peers : list PeerAnswer) (our_reading : SensorReading)
  : Node.NodeMetrics * list Node.Submission :=
  let peer_readings := collect_peer_readings peers ++ [our_reading] in
  if (min_nodes aggregator <=? Py.len peer_readings)%Z
  then Node.process_consensus calculate_confidence submit_data_async
         aggregator metrics sensor_name peer_readings
  else (metrics, []).

End ConsensusStep.

End NodeWindow.

(** ** Queries on the reputation system ([src/security/reputation.py]) *)

Module ReputationQueries.

Import Reputation.

(** The tiers of [calculate_consensus_weight]. *)
Definition weight_of (reputation : Q) : Q :=
  if Qle_bool (8 # 10) reputation then 1
  else if Qle_bool (6 # 10) reputation then 8 # 10
  else if Qle_bool (4 # 10) reputation then 5 # 10
  else if Qle_bool (2 # 10) reputation then 2 # 10
  else 1 # 10.

(** [calculate_consensus_weight]; reading the reputation stores the
    default for an unknown node. *)
Definition calculate_consensus_weight (self : ReputationSystem) (node_id : string)
  : Q * ReputationSystem :=
  let '(reputation, self1) := get_reputation self node_id in
  (weight_of reputation, self1).

(** Insertion for [sorted(history, key=timestamp, reverse=True)]: newest
    first, events of equal time in their input order. *)
Fixpoint insert_newest_first (e : ReputationEvent) (l : list ReputationEvent) :=
  match l with
  | [] => [e]
  | e' :: l' =>
      if (ev_timestamp e' <=? ev_timestamp e)%Z then e :: e' :: l'
      else e' :: insert_newest_first e l'
  end.

(** The order of a history: [a] comes before [b] when it is not older. *)
Definition newer_or_equal (a b : ReputationEvent) : Prop :=
  (ev_timestamp b <= ev_timestamp a)%Z.

(** [get_reputation_history]. *)
Definition get_reputation_history (self : ReputationSystem) (node_id : string)
    (days : Z) (now : Z) : list ReputationEvent :=
  let cutoff_time := (now - days * 24 * 3600)%Z in
  let history :=
    List.filter (fun event => String.eqb (ev_node_id event) node_id
                              && (cutoff_time <=? ev_timestamp event)%Z)
      (reputation_events self) in
  fold_right insert_newest_first [] history.

(** [cleanup_old_events]. *)
Definition cleanup_old_events (self : ReputationSystem) (days_to_keep : Z) (now : Z)
  : ReputationSystem :=
  let cutoff_time := (now - days_to_keep * 24 * 3600)%Z in
  set_reputation_events self
    (List.filter (fun event => (cutoff_time <=? ev_timestamp event)%Z) (reputation_events self)).

(** The entry [reputation_distribution] of [generate_reputation_report]. *)
Record Distribution := {
  excellent : Z;
  good : Z;
  average : Z;
  poor : Z;
  very_poor : Z
}.

Definition in_range (lo hi r : Q) : bool := Qle_bool lo r && Py.Qlt_bool r hi.

Definition reputation_distribution (reputations : list Q) : Distribution :=
  {| excellent := Py.len (List.filter (fun r => Qle_bool (9 # 10) r) reputations);
     good := Py.len (List.filter (in_range (7 # 10) (9 # 10)) reputations);
     average := Py.len (List.filter (in_range (5 # 10) (7 # 10)) reputations);
     poor := Py.len (List.filter (in_range (3 # 10) (5 # 10)) reputations);
     very_poor := Py.len (List.filter (fun r => Py.Qlt_bool r (3 # 10)) reputations) |}.

(** The entries [total_nodes], [total_events] and
    [reputation_distribution] of [generate_reputation_report]; [None]
    stands for the message returned when no reputation is stored. *)
Definition report_counts (self : ReputationSystem) : option (Z * Z * Distribution) :=
  let reputations := map snd (map_to_list (node_reputations self)) in
  match reputations with
  | [] => None
  | _ => Some (Py.len reputations, Py.len (reputation_events self),
               reputation_distribution reputations)
  end.

End ReputationQueries.

(** ** Stakes ([src/security/staking.py]) *)

Module Stakes.

Import Staking.

(** [get_node_stake]: the stake simulated from the first eight
    hexadecimal digits of the SHA-256 digest of the address, given here
    by [address_hash]. *)
Definition get_node_stake (address_hash : string -> Z) (node_address : string) : Z :=
  ((address_hash node_address mod 5000 + 1000) * 10 ^ 18)%Z.

(** [check_stake] for the account address of the node. *)
Definition check_stake (self : StakingManager) (w : World) (account_address : string) : bool :=
  (min_stake self <=? node_stake w account_address)%Z.

(** The dictionary appended to [stake_history]. *)
Record StakeEvent := {
  sk_action : string;
  sk_amount : Z;
  sk_timestamp : Z;
  sk_tx_hash : string
}.

(** What [withdraw_stake] and [increase_stake] raise. *)
Inductive StakeError :=
| ValueError_residual_stake   (* ValueError("Retrait refuse: ...") *)
| TransactionFailed.          (* raised by web3.send_transaction *)

(** [withdraw_stake]: the hash or the exception that is raised again,
    and [stake_history] afterwards. *)
Definition withdraw_stake (self : StakingManager) (stake_history : list StakeEvent)
    (w : World) (account_address : string) (amount : Z)
  : (StakeError + string) * list StakeEvent :=
  let current_stake := node_stake w account_address in
  if (current_stake - amount <? min_stake self)%Z then (inl ValueError_residual_stake, stake_history)
  else
    match send_transaction w with
    | None => (inl TransactionFailed, stake_history)
    | Some tx_hash =>
        (inr tx_hash,
         stake_history ++ [ {| sk_action := "withdraw"; sk_amount := amount;
                               sk_timestamp := now w; sk_tx_hash := tx_hash |} ])
    end.

(** [increase_stake]. *)
Definition increase_stake (stake_history : list StakeEvent) (w : World) (amount : Z)
  : (StakeError + string) * list StakeEvent :=
  match send_transaction w with
  | None => (inl TransactionFailed, stake_history)
  | Some tx_hash =>
      (inr tx_hash,
       stake_history ++ [ {| sk_action := "increase"; sk_amount := amount;
                             sk_timestamp := now w; sk_tx_hash := tx_hash |} ])
  end.


End Stakes.

(** ** Gauges and counters of the metrics collector
    ([src/monitoring/metrics.py]) *)

Module Gauges.

Record MetricPoint := {
  mp_timestamp : Z;
  mp_value : Q;
  mp_labels : list (string * string)
}.

(** The fields [retention_seconds], [metrics] and [counters]. *)
Record Collector := {
  retention_seconds : Z;
  metrics : gmap string (list MetricPoint);
  counters : gmap string Z
}.

(** [MetricsCollector(retention_hours)]. *)
Definition init (retention_hours : Z) : Collector :=
  {| retention_seconds := (retention_hours * 3600)%Z; metrics := ∅; counters := ∅ |}.

(** The bound of [deque(maxlen=10000)]. *)
Definition maxlen : nat := 10 * 1000.

(** [append] on a [deque(maxlen=10000)]: a full deque drops its oldest
    element. *)
Definition deque_append (points : list MetricPoint) (point : MetricPoint) : list MetricPoint :=
  let appended := points ++ [point] in
  if (maxlen <? List.length appended)%nat then Py.last_n maxlen appended else appended.

(** The loop [while points and points[0].timestamp < cutoff_time:
    points.popleft()]. *)
Fixpoint pop_old (cutoff_time : Z) (points : list MetricPoint) : list MetricPoint :=
  match points with
  | [] => []
  | p :: ps => if (mp_timestamp p <? cutoff_time)%Z then pop_old cutoff_time ps else points
  end.

(** [cleanup_old_metrics], at the clock [now]. *)
Definition cleanup_old_metrics (self : Collector) (now : Z) : Collector :=
  {| retention_seconds := retention_seconds self;
     metrics := pop_old (now - retention_seconds self) <$> metrics self;
     counters := counters self |}.

(** [record_metric]: the clock is read for the point ([now]) and again
    by the cleanup ([now_cleanup]). *)
Definition record_metric (self : Collector) (name : string) (value : Q)
    (labels : option (list (string * string))) (now now_cleanup : Z) : Collector :=
  let metric_point := {| mp_timestamp := now; mp_value := value;
                         mp_labels := default [] labels |} in
  let self1 :=
    {| retention_seconds := retention_seconds self;
       metrics := <[name := deque_append (default [] (metrics self !! name)) metric_point]>
                    (metrics self);
       counters := counters self |} in
  cleanup_old_metrics self1 now_cleanup.

(** [increment_counter]. *)
Definition increment_counter (self : Collector) (name : string) (value : Z)
    (labels : option (list (string * string))) : Collector :=
  let key := Metrics.metric_key name labels in
  {| retention_seconds := retention_seconds self;
     metrics := metrics self;
     counters := <[key := (default 0%Z (counters self !! key) + value)%Z]> (counters self) |}.

(** The four clock readings of the two [record_metric] calls made by
    [record_consensus_event]. *)
Record Clock4 := { t1 : Z; c1 : Z; t2 : Z; c2 : Z }.

(** [record_consensus_event]. *)
Definition record_consensus_event (self : Collector) (success : bool) (nodes_count : Z)
    (confidence : Q) (clock : Clock4) : Collector :=
  let self1 := increment_counter self "consensus_attempts_total" 1 None in
  if success then
    let self2 := increment_counter self1 "consensus_success_total" 1 None in
    let self3 := record_metric self2 "consensus_confidence" confidence None (t1 clock) (c1 clock) in
    record_metric self3 "consensus_nodes_participated" (inject_Z nodes_count) None
      (t2 clock) (c2 clock)
  else increment_counter self1 "consensus_failures_total" 1 None.

(** [get_latest_metric_value]. *)
Definition get_latest_metric_value (self : Collector) (metric_name : string) : Q :=
  match metrics self !! metric_name with
  | Some points =>
      match List.last (map Some points) None with
      | Some p => mp_value p
      | None => 0
      end
  | None => 0
  end.

(** [self.counters.get(name, 0)]. *)
Definition counter (self : Collector) (name : string) : Z :=
  default 0%Z (counters self !! name).

(** One call that writes to the collector. *)
Inductive write :=
| WriteMetric (name : string) (value : Q) (labels : option (list (string * string)))
    (now now_cleanup : Z)
| WriteConsensus (success : bool) (nodes_count : Z) (confidence : Q) (clock : Clock4).

Definition apply_write (self : Collector) (w : write) : Collector :=
  match w with
  | WriteMetric n v l t c => record_metric self n v l t c
  | WriteConsensus s n conf clock => record_consensus_event self s n conf clock
  end.

(** A sequence of writes on a fresh collector. *)
Definition run (retention_hours : Z) (writes : list write) : Collector :=
  fold_left apply_write writes (init retention_hours).

(** The consensus events among the writes, by their success flag. *)
Definition consensus_flags (writes : list write) : list bool :=
  flat_map (fun w => match w with
                     | WriteConsensus success _ _ _ => [success]
                     | WriteMetric _ _ _ _ _ => []
                     end) writes.

End Gauges.

(** ** The read cache and the quantisation of the contract handler
    ([src/blockchain/contract_handler.py]) *)

Module ContractHandler.

(** [self.cache_ttl], in seconds. *)
Definition cache_ttl : Q := 60.

Section Cache.

(** The cached data. *)
Variable A : Type.

(** An entry of [call_cache]: the data and the clock when it was set. *)
Record CacheItem := {
  ci_data : A;
  ci_timestamp : Q
}.

(** [_get_from_cache]: the result and the cache afterwards; an expired
    entry is deleted. *)
Definition get_from_cache (call_cache : gmap string CacheItem) (key : string) (now : Q)
  : option A * gmap string CacheItem :=
  match call_cache !! key with
  | Some cached_item =>
      if Py.Qlt_bool (now - ci_timestamp cached_item) cache_ttl
      then (Some (ci_data cached_item), call_cache)
      else (None, delete key call_cache)
  | None => (None, call_cache)
  end.

(** [_set_cache]. *)
Definition set_cache (call_cache : gmap string CacheItem) (key : string) (data : A) (now : Q)
  : gmap string CacheItem :=
  <[key := {| ci_data := data; ci_timestamp := now |}]> call_cache.

End Cache.

(** The integer [int(value * 100)] that [submit_data_async] and
    [batch_submit_data] send to the contract; [None] when [int] raises. *)
Definition quantize (value : float) : option Z := PyFloat.int (value * 100)%float.

End ContractHandler.

(** ** The specification's wording, for comparison with the code *)

Module SpecWords.

Import Aggregator.

(** The window-level error kinds of the specification, and the exception
    of [aggregate_readings] each one stands for: the size gate raises the
    [ValueError] that the test of insufficient nodes expects, the two
    [ConsensusError]s are consensus failures. *)
Inductive ErrorKind := InsufficientContributors | NoConsensus | Unexpected.

Definition error_kind (e : AggregationError) : ErrorKind :=
  match e with
  | ValueError_min_nodes => InsufficientContributors
  | ConsensusError_outliers | ConsensusError_no_consensus => NoConsensus
  | ValueError_empty_max | StatisticsError_no_median => Unexpected
  end.

(** Follows the specification: the tolerance is
    [max(|m| * outlier_tolerance, absolute_floor)] with an absolute floor
    of 0.1. *)
Definition absolute_floor : float := 0.1.

Definition spec_tolerance (self : DataAggregator) (m : float) : float :=
  PyFloat.max (abs m * outlier_tolerance self) absolute_floor.

(** Follows the specification: the fraction of the values within the
    tolerance of the median is compared with the consensus threshold. *)
Definition spec_check_consensus {sorting : PyFloat.Sorting} (self : DataAggregator)
    (values : list float) : bool :=
  match Statistics.median values with
  | None => false
  | Some m =>
      let agree :=
        List.filter (fun v => (abs (v - m) <=? spec_tolerance self m)%float) values in
      match PyFloat.truediv (Py.len agree) (Py.len values) with
      | None => false
      | Some ratio => (consensus_threshold self <=? ratio)%float
      end
  end.


(** Follows the specification: a percentile by linear interpolation
    between the two order statistics around the rank
    [percentile / 100 * (n - 1)] of the sorted sample. *)
Definition interpolated_percentile (samples : list Q) (percentile : Q) : option Q :=
  let values := Py.sorted samples in
  let rank := (percentile / 100) * inject_Z (Py.len values - 1) in
  let lo := Qfloor rank in
  match Py.index values lo with
  | None => None
  | Some a =>
      match Py.index values (lo + 1) with
      | None => Some a
      | Some b => Some (a + (rank - inject_Z lo) * (b - a))
      end
  end.

End SpecWords.

(** * Properties *)

(** ** Facts about the Python built-ins *)

Module PyFacts.

Lemma Qlt_bool_iff (a b : Q) : Py.Qlt_bool a b = true <-> a < b.
Proof.
  unfold Py.Qlt_bool. rewrite negb_true_iff.
  destruct (Qle_bool b a) eqn:E.
  - apply Qle_bool_iff in E. split; [discriminate | intros H].
    exfalso. apply (Qlt_not_le _ _ H). exact E.
  - split; [intros _ | reflexivity].
    destruct (Qlt_le_dec a b) as [H | H]; [exact H |].
    apply Qle_bool_iff in H. congruence.
Qed.

Lemma Qle_bool_false (a b : Q) : Qle_bool a b = false <-> b < a.
Proof.
  rewrite <- Qlt_bool_iff. unfold Py.Qlt_bool. symmetry. apply negb_true_iff.
Qed.

Lemma max_lower (a b : Q) : a <= Py.max a b.
Proof.
  unfold Py.max. destruct (Py.Qlt_bool a b) eqn:E; [| lra].
  apply Qlt_bool_iff in E. lra.
Qed.

Lemma max_upper (a b c : Q) : a <= c -> b <= c -> Py.max a b <= c.
Proof. unfold Py.max. destruct (Py.Qlt_bool a b); auto. Qed.

Lemma min_upper (a b : Q) : Py.min a b <= a.
Proof.
  unfold Py.min. destruct (Py.Qlt_bool b a) eqn:E; [| lra].
  apply Qlt_bool_iff in E. lra.
Qed.

(** A value already between the bounds is returned, up to the equality
    of rationals. *)
Lemma clamp_id (lo hi x : Q) : lo <= x -> x <= hi -> Py.max lo (Py.min hi x) == x.
Proof.
  intros Hlo Hhi. unfold Py.max, Py.min.
  destruct (Py.Qlt_bool x hi) eqn:E1.
  - destruct (Py.Qlt_bool lo x) eqn:E2; [reflexivity |].
    unfold Py.Qlt_bool in E2. apply negb_false_iff, Qle_bool_iff in E2.
    lra.
  - unfold Py.Qlt_bool in E1. apply negb_false_iff, Qle_bool_iff in E1.
    destruct (Py.Qlt_bool lo hi) eqn:E2; [lra |].
    unfold Py.Qlt_bool in E2. apply negb_false_iff, Qle_bool_iff in E2. lra.
Qed.

(** The clamp always lands between its bounds. *)
Lemma clamp_bounds (lo hi x : Q) :
  lo <= hi -> lo <= Py.max lo (Py.min hi x) /\ Py.max lo (Py.min hi x) <= hi.
Proof.
  intros H. split; [apply max_lower |].
  apply max_upper; [exact H | apply min_upper].
Qed.

End PyFacts.

(** ** [sorted] returns an ascending rearrangement of its argument *)

Module SortedFacts.

Lemma insert_sorted_perm (x : Q) (l : list Q) :
  Permutation (Py.insert_sorted x l) (x :: l).
Proof.
  induction l as [| y l IH]; simpl; [reflexivity |].
  destruct (Qle_bool x y); [reflexivity |].
  rewrite IH. apply perm_swap.
Qed.

Lemma sorted_perm (l : list Q) : Permutation (Py.sorted l) l.
Proof.
  induction l as [| x l IH]; simpl; [reflexivity |].
  rewrite insert_sorted_perm. now constructor.
Qed.

Lemma sorted_length (l : list Q) : List.length (Py.sorted l) = List.length l.
Proof. apply Permutation_length, sorted_perm. Qed.

Lemma insert_sorted_ascending (x : Q) (l : list Q) :
  StronglySorted Qle l -> StronglySorted Qle (Py.insert_sorted x l).
Proof.
  induction 1 as [| y l Hs IH Hy]; simpl.
  - constructor; constructor.
  - destruct (Qle_bool x y) eqn:E.
    + apply Qle_bool_iff in E. constructor.
      * now constructor.
      * constructor; [exact E |].
        eapply List.Forall_impl; [| exact Hy]. intros z Hz. simpl in Hz. lra.
    + apply PyFacts.Qle_bool_false in E. constructor; [exact IH |].
      rewrite List.Forall_forall. intros z Hz.
      apply (Permutation_in _ (insert_sorted_perm x l)) in Hz.
      destruct Hz as [<- | Hz]; [lra |].
      rewrite List.Forall_forall in Hy. now apply Hy.
Qed.

Lemma sorted_ascending (l : list Q) : StronglySorted Qle (Py.sorted l).
Proof.
  induction l as [| x l IH]; simpl; [constructor |].
  now apply insert_sorted_ascending.
Qed.

(** In an ascending list, positions are ordered like their contents. *)
Lemma ascending_nth (l : list Q) :
  StronglySorted Qle l ->
  forall (i j : nat) (a b : Q),
    (i <= j)%nat -> nth_error l i = Some a -> nth_error l j = Some b -> a <= b.
Proof.
  induction 1 as [| y l Hs IH Hy]; intros i j a b Hij Hi Hj.
  - destruct i; discriminate.
  - destruct i as [| i], j as [| j]; simpl in *.
    + injection Hi as <-. injection Hj as <-. lra.
    + injection Hi as <-. apply nth_error_In in Hj.
      rewrite List.Forall_forall in Hy. now apply Hy.
    + lia.
    + apply (IH i j); [lia | assumption | assumption].
Qed.

End SortedFacts.

(** ** Facts about binary64 arithmetic *)

Module Binary64Facts.

Import Binary64 PyFloat.

(** *** The specification of the operations *)

Lemma SFcompare_refl (x : spec_float) :
  x <> S754_nan -> SFcompare x x = Some Eq.
Proof.
  destruct x as [s | s | | s m e]; intros H; try congruence.
  - reflexivity.
  - now destruct s.
  - simpl. rewrite Z.compare_refl.
    change (Pos.compare_cont Eq m m) with (Pos.compare m m).
    rewrite Pos.compare_refl. now destruct s.
Qed.

Lemma SFleb_rank (x y : spec_float) :
  x <> S754_nan -> y <> S754_nan ->
  (SFleb x y = true <-> rank_le (rank x) (rank y)).
Proof.
  intros Hx Hy. unfold SFleb.
  destruct x as [sx | sx | | sx mx ex]; try congruence;
  destruct y as [sy | sy | | sy my ey]; try congruence;
  try destruct sx; try destruct sy; simpl;
  try (split; [intros _; lia | reflexivity]);
  try (split; [discriminate | lia]).
  - destruct (Z.compare_spec ex ey) as [E | E | E];
      change (Pos.compare_cont Eq mx my) with (Pos.compare mx my);
      try destruct (Pos.compare_spec mx my) as [E' | E' | E']; simpl;
      split; try discriminate; try lia; try reflexivity.
  - destruct (Z.compare_spec ex ey) as [E | E | E];
      change (Pos.compare_cont Eq mx my) with (Pos.compare mx my);
      try destruct (Pos.compare_spec mx my) as [E' | E' | E']; simpl;
      split; try discriminate; try lia; try reflexivity.
Qed.

Lemma rank_le_trans (a b c : Z * Z * Z) : rank_le a b -> rank_le b c -> rank_le a c.
Proof. destruct a as [[? ?] ?], b as [[? ?] ?], c as [[? ?] ?]. simpl. lia. Qed.

Lemma rank_le_total (a b : Z * Z * Z) : rank_le a b \/ rank_le b a.
Proof. destruct a as [[? ?] ?], b as [[? ?] ?]. simpl. lia. Qed.

(** Rounding never turns a non-negative mantissa into a negative one. *)
Lemma shr_1_nonneg (mrs : shr_record) : (0 <= shr_m mrs)%Z -> (0 <= shr_m (shr_1 mrs))%Z.
Proof.
  destruct mrs as [m r s]. simpl.
  destruct m as [| p | p]; [simpl; lia | destruct p; simpl; lia | lia].
Qed.

Lemma iter_shr_1_nonneg (p : positive) :
  forall mrs, (0 <= shr_m mrs)%Z -> (0 <= shr_m (SpecFloat.iter_pos shr_1 p mrs))%Z.
Proof.
  induction p as [p IH | p IH |]; intros mrs H; simpl.
  - apply IH, IH, shr_1_nonneg, H.
  - apply IH, IH, H.
  - apply shr_1_nonneg, H.
Qed.

Lemma shr_fexp_nonneg (m e : Z) (l : location) :
  (0 <= m)%Z -> (0 <= shr_m (fst (shr_fexp prec emax m e l)))%Z.
Proof.
  intros H. unfold shr_fexp, shr.
  assert (H0 : (0 <= shr_m (shr_record_of_loc m l))%Z).
  { destruct l as [| []]; exact H. }
  destruct (fexp prec emax (Zdigits2 m + e) - e)%Z; simpl;
    [exact H0 | now apply iter_shr_1_nonneg | exact H0].
Qed.

Lemma round_nearest_even_nonneg (m : Z) (l : location) :
  (0 <= m)%Z -> (0 <= round_nearest_even m l)%Z.
Proof.
  intros H. destruct l as [| []]; simpl; try lia.
  destruct (Z.even m); lia.
Qed.

(** The result of a rounding is a zero, a finite number or an infinity
    of the given sign. *)
Lemma binary_round_aux_signed (s : bool) (m e : Z) (l : location) :
  (0 <= m)%Z ->
  let r := binary_round_aux prec emax s m e l in
  r = S754_zero s \/ r = S754_infinity s \/ exists m' e', r = S754_finite s m' e'.
Proof.
  intros H. cbv zeta. unfold binary_round_aux.
  pose proof (shr_fexp_nonneg m e l H) as H1.
  destruct (shr_fexp prec emax m e l) as [mrs1 e1]. simpl in H1.
  pose proof (shr_fexp_nonneg
                (round_nearest_even (shr_m mrs1) (loc_of_shr_record mrs1)) e1 loc_Exact
                (round_nearest_even_nonneg _ _ H1)) as H2.
  destruct (shr_fexp prec emax _ e1 loc_Exact) as [mrs2 e2]. simpl in H2.
  destruct (shr_m mrs2) as [| p | p]; [now left | | lia].
  destruct (e2 <=? emax - prec)%Z; [right; right; now eexists _, _ | right; now left].
Qed.

(** A difference of a finite number with itself is the positive zero. *)
Lemma SFsub_diag (s : bool) (m : positive) (e : Z) :
  SFsub prec emax (S754_finite s m e) (S754_finite s m e) = S754_zero false.
Proof. simpl. now rewrite Z.sub_diag. Qed.

Lemma SFltb_abs_zero (r : spec_float) (s : bool) : SFltb (SFabs r) (S754_zero s) = false.
Proof. destruct r as [sr | sr | | sr m e]; reflexivity. Qed.

Lemma SFleb_zero_abs (r : spec_float) :
  r <> S754_nan -> SFleb (S754_zero false) (SFabs r) = true.
Proof. destruct r as [sr | sr | | sr m e]; intros H; [reflexivity | reflexivity | congruence | reflexivity]. Qed.

(** *** The primitive operations *)

Lemma is_nan_spec (x : float) :
  is_nan x = match Prim2SF x with S754_nan => true | _ => false end.
Proof.
  unfold is_nan. rewrite FloatAxioms.eqb_spec. unfold SFeqb.
  destruct (Prim2SF x) as [s | s | | s m e] eqn:E; try reflexivity;
    rewrite SFcompare_refl; try reflexivity; discriminate.
Qed.

Lemma not_nan_spec (x : float) : is_nan x = false <-> Prim2SF x <> S754_nan.
Proof.
  rewrite is_nan_spec. destruct (Prim2SF x); split; congruence.
Qed.

Lemma is_finite_spec (x : float) : is_finite x = finite_spec (Prim2SF x).
Proof.
  unfold is_finite, is_infinity. rewrite is_nan_spec, FloatAxioms.eqb_spec, abs_spec.
  change (Prim2SF infinity) with (S754_infinity false).
  destruct (Prim2SF x) as [s | s | | s m e]; reflexivity.
Qed.

Lemma leb_trans (x y z : float) :
  (x <=? y)%float = true -> (y <=? z)%float = true -> (x <=? z)%float = true.
Proof.
  rewrite !FloatAxioms.leb_spec. intros Hxy Hyz.
  assert (Hx : Prim2SF x <> S754_nan).
  { intros E. rewrite E in Hxy. discriminate. }
  assert (Hy : Prim2SF y <> S754_nan).
  { intros E. rewrite E in Hyz. discriminate. }
  assert (Hz : Prim2SF z <> S754_nan).
  { intros E. rewrite E in Hyz. unfold SFleb in Hyz.
    destruct (Prim2SF y); discriminate. }
  apply SFleb_rank in Hxy, Hyz; try assumption.
  apply SFleb_rank; try assumption. eapply rank_le_trans; eassumption.
Qed.

Lemma leb_total (x y : float) :
  is_nan x = false -> is_nan y = false ->
  (x <=? y)%float = false -> (y <=? x)%float = true.
Proof.
  intros Hx Hy. apply not_nan_spec in Hx, Hy. rewrite !FloatAxioms.leb_spec. intros H.
  apply SFleb_rank; try assumption.
  destruct (rank_le_total (rank (Prim2SF x)) (rank (Prim2SF y))) as [Hr | Hr]; [| exact Hr].
  apply SFleb_rank in Hr; try assumption. congruence.
Qed.

(** [x - x] is the positive zero for every finite [x]. *)
Lemma sub_diag (x : float) : is_finite x = true -> (x - x)%float = 0%float.
Proof.
  rewrite is_finite_spec. intros H. apply Prim2SF_inj. rewrite sub_spec.
  change (Prim2SF 0) with (S754_zero false). unfold SF64sub.
  destruct (Prim2SF x) as [s | s | | s m e]; try discriminate.
  - now destruct s.
  - apply SFsub_diag.
Qed.

(** Subtracting or adding the positive zero leaves a finite number
    where it is in the order. *)
Lemma sub_zero_leb (x : float) : is_finite x = true -> (x - 0 <=? x)%float = true.
Proof.
  rewrite is_finite_spec. intros H. rewrite FloatAxioms.leb_spec, sub_spec.
  change (Prim2SF 0) with (S754_zero false). unfold SF64sub.
  destruct (Prim2SF x) as [s | s | | s m e] eqn:E; try discriminate.
  - now destruct s.
  - simpl SFsub. unfold SFleb. now rewrite SFcompare_refl.
Qed.

Lemma leb_add_zero (x : float) : is_finite x = true -> (x <=? x + 0)%float = true.
Proof.
  rewrite is_finite_spec. intros H. rewrite FloatAxioms.leb_spec, add_spec.
  change (Prim2SF 0) with (S754_zero false). unfold SF64add.
  destruct (Prim2SF x) as [s | s | | s m e] eqn:E; try discriminate.
  - now destruct s.
  - simpl SFadd. unfold SFleb. now rewrite SFcompare_refl.
Qed.

(** The magnitude of a product of a finite non-zero number with a number
    is not below zero. *)
Lemma zero_leb_abs_mul (x y : float) :
  is_finite x = true -> (x =? 0)%float = false -> is_nan y = false ->
  (0 <=? abs (x * y))%float = true.
Proof.
  rewrite is_finite_spec, is_nan_spec, FloatAxioms.eqb_spec, FloatAxioms.leb_spec,
    abs_spec, mul_spec.
  change (Prim2SF 0) with (S754_zero false). unfold SF64mul.
  intros Hx Hz Hy. apply SFleb_zero_abs.
  destruct (Prim2SF x) as [sx | sx | | sx mx ex]; try discriminate Hx.
  { cbn in Hz. discriminate Hz. }
  destruct (Prim2SF y) as [sy | sy | | sy my ey]; try discriminate Hy.
  - simpl. discriminate.
  - simpl. discriminate.
  - simpl.
    destruct (binary_round_aux_signed (xorb sx sy) (Zpos (mx * my)) (ex + ey) loc_Exact)
      as [E | [E | (m' & e' & E)]]; [lia | | |]; rewrite E; discriminate.
Qed.

(** *** Conversions *)

Lemma truediv_self (n : Z) : (0 < n)%Z -> truediv n n = Some 1%float.
Proof.
  intros Hn. unfold truediv.
  destruct (Z.eqb_spec n 0) as [E | _]; [lia |].
  rewrite (Z.sgn_pos n Hn), Z.mul_1_l, (Z.abs_eq n) by lia.
  assert (E : Qred (n # Z.to_pos n) = 1).
  { change 1 with (Qred 1). apply Qred_complete.
    unfold Qeq. simpl. rewrite Z2Pos.id by exact Hn. lia. }
  rewrite E. reflexivity.
Qed.

(** *** Sorting *)

Lemma float_insert_sorted_perm (x : float) (l : list float) :
  Permutation (insert_sorted x l) (x :: l).
Proof.
  induction l as [| y l IH]; simpl; [reflexivity |].
  destruct (x <=? y)%float; [reflexivity |].
  rewrite IH. apply perm_swap.
Qed.

Lemma stable_sort_perm (l : list float) : Permutation (stable_sort l) l.
Proof.
  induction l as [| x l IH]; simpl; [reflexivity |].
  rewrite float_insert_sorted_perm. now constructor.
Qed.

Lemma float_insert_sorted_ascending (x : float) (l : list float) :
  is_nan x = false -> no_nan l ->
  StronglySorted le l -> StronglySorted le (insert_sorted x l).
Proof.
  intros Hx Hl Hs. induction Hs as [| y l Hs IH Hy]; simpl.
  - constructor; constructor.
  - apply Forall_cons_1 in Hl as [Hny Hl].
    destruct (x <=? y)%float eqn:E.
    + constructor; [now constructor |].
      constructor; [exact E |].
      eapply List.Forall_impl; [| exact Hy]. intros z Hz. exact (leb_trans _ _ _ E Hz).
    + apply (leb_total x y Hx Hny) in E. constructor; [now apply IH |].
      rewrite List.Forall_forall. intros z Hz.
      apply (Permutation_in _ (float_insert_sorted_perm x l)) in Hz.
      destruct Hz as [<- | Hz]; [exact E |].
      rewrite List.Forall_forall in Hy. now apply Hy.
Qed.

Lemma stable_sort_no_nan (l : list float) : no_nan l -> no_nan (stable_sort l).
Proof.
  unfold no_nan. intros H. rewrite List.Forall_forall in *. intros x Hx.
  apply H. apply (Permutation_in _ (stable_sort_perm l)), Hx.
Qed.

Lemma stable_sort_ascending (l : list float) :
  no_nan l -> StronglySorted le (stable_sort l).
Proof.
  induction l as [| x l IH]; intros H; simpl; [constructor |].
  apply Forall_cons_1 in H as [Hx Hl].
  apply float_insert_sorted_ascending; [exact Hx | now apply stable_sort_no_nan | now apply IH].
Qed.

(** The stable sort is one of the sorts the model ranges over. *)
#[export] Instance stable_sorting : Sorting :=
  {| sorted := stable_sort;
     sorted_permutation := stable_sort_perm;
     sorted_without_nan := fun l _ => eq_refl |}.

Section Sorted.

Context {sorting : Sorting}.

Lemma float_sorted_length (l : list float) : List.length (sorted l) = List.length l.
Proof. apply Permutation_length, sorted_permutation. Qed.

Lemma float_sorted_In (l : list float) (x : float) : In x (sorted l) <-> In x l.
Proof.
  split; apply Permutation_in;
    [apply sorted_permutation | symmetry; apply sorted_permutation].
Qed.

Lemma float_sorted_ascending (l : list float) : no_nan l -> StronglySorted le (sorted l).
Proof.
  intros H. rewrite (sorted_without_nan l H). now apply stable_sort_ascending.
Qed.

End Sorted.

End Binary64Facts.

(** ** The outlier filter *)

Module OutlierFacts.

Import Aggregator Binary64Facts.

Lemma within_bounds_iff (lo hi v : float) :
  within_bounds lo hi v = true <-> PyFloat.le lo v /\ PyFloat.le v hi.
Proof. unfold within_bounds, PyFloat.le. apply andb_true_iff. Qed.

Lemma filter_length_le {A : Type} (f : A -> bool) (l : list A) :
  (List.length (List.filter f l) <= List.length l)%nat.
Proof.
  induction l as [| x l IH]; simpl; [lia |].
  destruct (f x); simpl; lia.
Qed.

Lemma filter_sublist {A : Type} (f : A -> bool) (l : list A) :
  sublist (List.filter f l) l.
Proof.
  induction l as [| x l IH]; simpl; [constructor |].
  destruct (f x); now constructor.
Qed.

Lemma filter_twice {A : Type} (f : A -> bool) (l : list A) :
  List.filter f (List.filter f l) = List.filter f l.
Proof.
  induction l as [| x l IH]; simpl; [reflexivity |].
  destruct (f x) eqn:E; simpl; [rewrite E, IH |]; auto.
Qed.

Lemma filter_all {A : Type} (f : A -> bool) (l : list A) :
  (forall x, In x l -> f x = true) -> List.filter f l = l.
Proof.
  induction l as [| x l IH]; intros H; simpl; [reflexivity |].
  rewrite (H x) by now left. f_equal. apply IH. intros y Hy. apply H. now right.
Qed.

Section Filter.

Context {sorting : PyFloat.Sorting}.

(** Both quartile positions are inside any list of at least four values. *)
Lemma quartiles_exist (values : list float) :
  (4 <= List.length values)%nat ->
  exists q1 q3,
    nth_error (PyFloat.sorted values) (List.length values / 4) = Some q1 /\
    nth_error (PyFloat.sorted values) (3 * List.length values / 4) = Some q3.
Proof.
  intros Hn.
  assert (H1 : (List.length values / 4 < List.length (PyFloat.sorted values))%nat).
  { rewrite float_sorted_length. apply Nat.Div0.div_lt_upper_bound. lia. }
  assert (H3 : (3 * List.length values / 4 < List.length (PyFloat.sorted values))%nat).
  { rewrite float_sorted_length. apply Nat.Div0.div_lt_upper_bound. lia. }
  apply nth_error_Some in H1, H3.
  destruct (nth_error (PyFloat.sorted values) (List.length values / 4)) as [q1 |];
    [| congruence].
  destruct (nth_error (PyFloat.sorted values) (3 * List.length values / 4)) as [q3 |];
    [| congruence].
  now exists q1, q3.
Qed.

(** [remove_outliers], unfolded on a list of at least four values. *)
Lemma remove_outliers_unfold (values : list float) (q1 q3 : float) :
  (4 <= List.length values)%nat ->
  nth_error (PyFloat.sorted values) (List.length values / 4) = Some q1 ->
  nth_error (PyFloat.sorted values) (3 * List.length values / 4) = Some q3 ->
  remove_outliers values =
    match List.filter (within_bounds (q1 - 1.5 * (q3 - q1)) (q3 + 1.5 * (q3 - q1))) values with
    | [] => values
    | kept => kept
    end.
Proof.
  intros Hn H1 H3. unfold remove_outliers.
  destruct (Nat.ltb_spec (List.length values) 4) as [Hlt | _]; [lia |].
  cbv zeta. rewrite float_sorted_length, H1, H3.
  destruct (List.filter _ values); reflexivity.
Qed.

Lemma remove_outliers_short (values : list float) :
  (List.length values < 4)%nat -> remove_outliers values = values.
Proof.
  intros Hlt. unfold remove_outliers.
  destruct (Nat.ltb_spec (List.length values) 4) as [_ | Hge]; [reflexivity | lia].
Qed.

Lemma remove_outliers_sublist (values : list float) :
  sublist (remove_outliers values) values.
Proof.
  destruct (Nat.lt_ge_cases (List.length values) 4) as [Hlt | Hge].
  - now rewrite remove_outliers_short.
  - destruct (quartiles_exist values Hge) as (q1 & q3 & H1 & H3).
    rewrite (remove_outliers_unfold values q1 q3 Hge H1 H3).
    pose proof (filter_sublist
      (within_bounds (q1 - 1.5 * (q3 - q1)) (q3 + 1.5 * (q3 - q1))) values) as Hs.
    destruct (List.filter _ values); [reflexivity | exact Hs].
Qed.

Lemma remove_outliers_length_le (values : list float) :
  (List.length (remove_outliers values) <= List.length values)%nat.
Proof. apply sublist_length, remove_outliers_sublist. Qed.

End Filter.

End OutlierFacts.

Module OutlierClaims.

Import Aggregator Binary64Facts OutlierFacts.

(** The bounds are the ones the interpreter computes: on
    [23.1, 22.8, 23.3, 23.1] the quartiles are 23.1 and 23.3, the
    computed lower bound is a float just above 22.8, and the reading
    22.8 is removed. *)
Lemma remove_outliers_rounded_bound :
  remove_outliers [23.1; 22.8; 23.3; 23.1]%float = [23.1; 23.3; 23.1]%float /\
  (22.8 <? 23.1 - 1.5 * (23.3 - 23.1))%float = true.
Proof. split; vm_compute; reflexivity. Qed.

(** C4.  The IQR filter returns a list of fewer than four values
    unchanged.  On a longer list it takes [Q1] and [Q3] at the positions
    [n // 4] and [3 * n // 4] of the sorted values (a rearrangement of
    the input, ascending when no value is not-a-number), keeps exactly
    the values between [Q1 - 1.5 * IQR] and [Q3 + 1.5 * IQR], in their
    input order, and returns the input unfiltered when nothing is kept.
    The bounds and the two comparisons are those of binary64
    arithmetic, as the interpreter evaluates them. *)
Theorem remove_outliers_iqr {sorting : PyFloat.Sorting} (values : list float) :
  Permutation (PyFloat.sorted values) values /\
  (PyFloat.no_nan values -> StronglySorted PyFloat.le (PyFloat.sorted values)) /\
  ((List.length values < 4)%nat /\ remove_outliers values = values
   \/
   (4 <= List.length values)%nat /\
   exists q1 q3 : float,
     nth_error (PyFloat.sorted values) (List.length values / 4) = Some q1 /\
     nth_error (PyFloat.sorted values) (3 * List.length values / 4) = Some q3 /\
     let iqr := (q3 - q1)%float in
     let lower_bound := (q1 - 1.5 * iqr)%float in
     let upper_bound := (q3 + 1.5 * iqr)%float in
     let kept := List.filter (within_bounds lower_bound upper_bound) values in
     (forall v, In v kept <->
                In v values /\ PyFloat.le lower_bound v /\ PyFloat.le v upper_bound) /\
     sublist kept values /\
     remove_outliers values = match kept with [] => values | _ => kept end).
Proof.
  split; [apply PyFloat.sorted_permutation |].
  split; [apply float_sorted_ascending |].
  destruct (Nat.lt_ge_cases (List.length values) 4) as [Hlt | Hge].
  - left. split; [exact Hlt | now apply remove_outliers_short].
  - right. split; [exact Hge |].
    destruct (quartiles_exist values Hge) as (q1 & q3 & H1 & H3).
    exists q1, q3. split; [exact H1 |]. split; [exact H3 |].
    cbv zeta. split; [| split].
    + intros v. rewrite List.filter_In, within_bounds_iff. reflexivity.
    + apply filter_sublist.
    + rewrite (remove_outliers_unfold values q1 q3 Hge H1 H3).
      destruct (List.filter _ values); reflexivity.
Qed.

(** C5, as stated, fails: on [0, 10, 10, 10, 10, 11, 100] the first pass
    keeps [10, 10, 10, 10, 11] and the second pass, with the quartiles of
    that shorter list, also drops 11. *)
Lemma remove_outliers_not_idempotent :
  remove_outliers (remove_outliers [0; 10; 10; 10; 10; 11; 100]%float)
  <> remove_outliers [0; 10; 10; 10; 10; 11; 100]%float.
Proof. vm_compute. discriminate. Qed.

(** C5, amended.  A second pass of the filter only removes further
    values: its result is a sub-sequence of the result of the first pass.
    The two passes agree when the first leaves fewer than four values,
    and filtering twice with the same bounds changes nothing; the second
    pass differs only because it recomputes the quartiles. *)
Theorem remove_outliers_second_pass {sorting : PyFloat.Sorting} (values : list float) :
  sublist (remove_outliers (remove_outliers values)) (remove_outliers values) /\
  ((List.length (remove_outliers values) < 4)%nat ->
   remove_outliers (remove_outliers values) = remove_outliers values) /\
  (forall lower_bound upper_bound : float,
     List.filter (within_bounds lower_bound upper_bound)
       (List.filter (within_bounds lower_bound upper_bound) values)
     = List.filter (within_bounds lower_bound upper_bound) values).
Proof.
  split; [apply remove_outliers_sublist |].
  split; [apply remove_outliers_short |].
  intros lo hi. apply filter_twice.
Qed.

End OutlierClaims.

(** ** The aggregation pipeline *)

Module AggregatorFacts.

Import Aggregator Binary64Facts OutlierFacts.

Lemma max_timestamp_some (readings : list SensorReading) :
  readings <> [] -> exists ts, max_timestamp readings = Some ts.
Proof. destruct readings; [congruence | intros _; now eexists]. Qed.

Lemma validated_length_le (readings : list SensorReading) :
  (Py.len (validate_signatures readings) <= Py.len readings)%Z.
Proof.
  unfold Py.len, validate_signatures.
  pose proof (filter_length_le signature_ok readings). lia.
Qed.

Section Pipeline.

Context {sorting : PyFloat.Sorting}.

(** The median of a non-empty list: its middle element when the number
    of values is odd, the halved sum of the two middle elements of the
    sorted list otherwise. *)
Lemma median_cases (values : list float) :
  values <> [] ->
  exists m, Statistics.median values = Some m /\
    ((Nat.odd (List.length values) = true /\ In m values) \/
     (Nat.odd (List.length values) = false /\
      exists a b, In a values /\ In b values /\ m = ((a + b) / 2)%float)).
Proof.
  intros Hne. unfold Statistics.median.
  pose proof (float_sorted_length values) as Hl.
  assert (Hn : List.length (PyFloat.sorted values) <> 0%nat).
  { rewrite Hl. destruct values; [congruence | discriminate]. }
  set (s := PyFloat.sorted values) in *. set (n := List.length s) in *.
  assert (Hin : forall i x, nth_error s i = Some x -> In x values).
  { intros i x Hx. apply float_sorted_In. fold s. exact (nth_error_In _ _ Hx). }
  destruct (Nat.eqb_spec n 0) as [E | _]; [congruence |].
  assert (H2 : (n / 2 < n)%nat) by (apply Nat.div_lt; lia).
  rewrite <- Hl. fold n.
  destruct (Nat.odd n).
  - destruct (nth_error s (n / 2)) as [m |] eqn:E.
    + exists m. split; [reflexivity |]. left. split; [reflexivity | eapply Hin, E].
    + apply nth_error_None in E. fold n in E. lia.
  - destruct (nth_error s (n / 2 - 1)) as [a |] eqn:Ea.
    + destruct (nth_error s (n / 2)) as [b |] eqn:Eb.
      * eexists. split; [reflexivity |]. right. split; [reflexivity |].
        exists a, b. split; [eapply Hin, Ea |]. split; [eapply Hin, Eb | reflexivity].
      * apply nth_error_None in Eb. fold n in Eb. lia.
    + apply nth_error_None in Ea. fold n in Ea. lia.
Qed.

Lemma median_some (values : list float) :
  values <> [] -> exists m, Statistics.median values = Some m.
Proof.
  intros Hne. destruct (median_cases values Hne) as (m & Hm & _). now exists m.
Qed.

Lemma check_consensus_nonempty (self : DataAggregator) (values : list float) :
  check_consensus self values = true -> values <> [].
Proof. destruct values; [discriminate | discriminate]. Qed.

(** The values left after filtering are no more than the validated
    readings. *)
Lemma filtered_length_le (readings : list SensorReading) :
  (Py.len (remove_outliers (map value (validate_signatures readings)))
   <= Py.len (validate_signatures readings))%Z.
Proof.
  unfold Py.len.
  pose proof (remove_outliers_length_le (map value (validate_signatures readings))) as H.
  rewrite length_map in H. lia.
Qed.

Variable calculate_confidence : list float -> float.

(** The three outcomes of [aggregate_readings] that can occur, by the
    tests made in the source. *)
Lemma aggregate_readings_cases (self : DataAggregator) (readings : list SensorReading) :
  let validated := validate_signatures readings in
  let filtered := remove_outliers (map value validated) in
  ((Py.len readings < min_nodes self)%Z /\
   aggregate_readings calculate_confidence self readings = inl ValueError_min_nodes)
  \/
  ((min_nodes self <= Py.len readings)%Z /\ (Py.len filtered < min_nodes self)%Z /\
   aggregate_readings calculate_confidence self readings = inl ConsensusError_outliers)
  \/
  ((min_nodes self <= Py.len filtered)%Z /\ check_consensus self filtered = false /\
   aggregate_readings calculate_confidence self readings = inl ConsensusError_no_consensus)
  \/
  ((min_nodes self <= Py.len filtered)%Z /\ check_consensus self filtered = true /\
   exists final_value ts,
     Statistics.median filtered = Some final_value /\
     max_timestamp validated = Some ts /\
     aggregate_readings calculate_confidence self readings =
       inr {| res_value := final_value;
              res_timestamp := ts;
              res_confidence := calculate_confidence filtered;
              res_nodes_participated := Py.len validated;
              res_outliers_removed := (Py.len (map value validated) - Py.len filtered)%Z |}).
Proof.
  cbv zeta. unfold aggregate_readings.
  pose proof (validated_length_le readings) as Hv.
  pose proof (filtered_length_le readings) as Hf.
  set (validated := validate_signatures readings) in *.
  set (filtered := remove_outliers (map value validated)) in *.
  destruct (Z.ltb_spec (Py.len readings) (min_nodes self)) as [H1 | H1]; [left; now split |].
  right.
  destruct (Z.ltb_spec (Py.len filtered) (min_nodes self)) as [H2 | H2]; [left; now repeat split |].
  right.
  destruct (check_consensus self filtered) eqn:Hc; simpl; [right | left; now repeat split].
  split; [exact H2 |]. split; [reflexivity |].
  pose proof (check_consensus_nonempty _ _ Hc) as Hne.
  destruct (median_some filtered Hne) as [m Hm].
  assert (Hvne : validated <> []).
  { intros E. apply Hne. unfold filtered. rewrite E. reflexivity. }
  destruct (max_timestamp_some validated Hvne) as [ts Hts].
  exists m, ts. rewrite Hm, Hts. now repeat split.
Qed.

End Pipeline.

End AggregatorFacts.

Module AggregatorClaims.

Import Aggregator Binary64Facts OutlierFacts AggregatorFacts.

(** C1, as stated, fails: with [min_nodes = 4], four signed readings
    [0, 10, 10, 10] give four participating nodes and full agreement of
    the filtered values [10, 10, 10], yet no result is returned, because
    the count that is tested is the one of the filtered values. *)
Lemma result_without_filtered_count :
  let self := Samples.four_nodes in
  let readings := Samples.one_low_reading in
  let validated := validate_signatures readings in
  let filtered := remove_outliers (map value validated) in
  (min_nodes self <= Py.len validated)%Z /\
  (exists m ratio, Statistics.median filtered = Some m /\
                   consensus_ratio self m filtered = Some ratio /\
                   (consensus_threshold self <=? ratio)%float = true) /\
  check_consensus self filtered = true /\
  aggregate_readings Samples.full_confidence self readings = inl ConsensusError_outliers.
Proof.
  cbv zeta. split; [vm_compute; discriminate |].
  split; [| split; vm_compute; reflexivity].
  exists 10%float, 1%float. repeat split; vm_compute; reflexivity.
Qed.

(** C1, amended.  [aggregate_readings] returns a result if and only if
    at least [min_nodes] values are left after outlier filtering and
    [check_consensus] accepts them.  When fewer than four readings are
    signature-valid nothing is filtered, and this is the same as:
    [nodes_participated], the number of signature-valid readings, is at
    least [min_nodes] and [check_consensus] accepts their values.  A
    result reports that number of valid readings, which is at least
    [min_nodes]; every other call raises. *)
Theorem aggregate_readings_result_iff {sorting : PyFloat.Sorting}
    (calculate_confidence : list float -> float) (self : DataAggregator)
    (readings : list SensorReading) :
  let validated := validate_signatures readings in
  let filtered := remove_outliers (map value validated) in
  let outcome := aggregate_readings calculate_confidence self readings in
  ((exists res, outcome = inr res) <->
   (min_nodes self <= Py.len filtered)%Z /\ check_consensus self filtered = true) /\
  ((Py.len validated < 4)%Z ->
   ((exists res, outcome = inr res) <->
    (min_nodes self <= Py.len validated)%Z /\
    check_consensus self (map value validated) = true)) /\
  (forall res, outcome = inr res ->
     res_nodes_participated res = Py.len validated /\
     (min_nodes self <= res_nodes_participated res)%Z) /\
  ((exists res, outcome = inr res) \/ (exists e, outcome = inl e)).
Proof.
  cbv zeta.
  pose proof (filtered_length_le readings) as Hf.
  assert (Hiff :
    (exists res, aggregate_readings calculate_confidence self readings = inr res) <->
    (min_nodes self <= Py.len (remove_outliers (map value (validate_signatures readings))))%Z /\
    check_consensus self (remove_outliers (map value (validate_signatures readings))) = true).
  { destruct (aggregate_readings_cases calculate_confidence self readings)
      as [[H1 E] | [(H1 & H2 & E) | [(H1 & H2 & E) | (H1 & H2 & m & ts & _ & _ & E)]]];
      rewrite E; split.
    - intros [res Hres]; discriminate.
    - intros [H _]. pose proof (validated_length_le readings). lia.
    - intros [res Hres]; discriminate.
    - intros [H _]. lia.
    - intros [res Hres]; discriminate.
    - intros [_ H]. congruence.
    - intros _. now split.
    - intros _. now eexists. }
  split; [exact Hiff |]. split; [| split].
  - intros H4. rewrite Hiff.
    assert (Hs : remove_outliers (map value (validate_signatures readings))
                 = map value (validate_signatures readings)).
    { apply remove_outliers_short. rewrite length_map. unfold Py.len in H4. lia. }
    rewrite Hs. unfold Py.len. rewrite length_map. reflexivity.
  - intros res Hres.
    destruct (aggregate_readings_cases calculate_confidence self readings)
      as [[H1 E] | [(H1 & H2 & E) | [(H1 & H2 & E) | (H1 & H2 & m & ts & _ & _ & E)]]];
      rewrite E in Hres; try discriminate.
    injection Hres as <-. simpl. split; [reflexivity | lia].
  - destruct (aggregate_readings calculate_confidence self readings) as [e | res];
      [right | left]; now eexists.
Qed.

End AggregatorClaims.

(** ** The size gate *)

Module SizeGateClaims.

Import Aggregator Binary64Facts OutlierFacts AggregatorFacts.

(** C2, as stated, fails: three readings of which one has a rejected
    signature leave two valid readings, fewer than [min_nodes = 3], and
    the call fails with the [ConsensusError] of the outlier test, not
    with the [ValueError] of the size gate. *)
Lemma short_valid_subset_other_error :
  let self := default_aggregator in
  let readings := Samples.one_bad_signature in
  (Py.len (validate_signatures readings) < min_nodes self)%Z /\
  aggregate_readings Samples.full_confidence self readings = inl ConsensusError_outliers /\
  SpecWords.error_kind ConsensusError_outliers <> SpecWords.InsufficientContributors.
Proof.
  cbv zeta. split; [vm_compute; reflexivity |].
  split; [vm_compute; reflexivity | discriminate].
Qed.

(** C2, amended.  The size gate counts the readings as they are given,
    before signatures are checked: fewer than [min_nodes] readings fail
    with the [ValueError] of the gate (InsufficientContributors).  At
    least [min_nodes] readings with fewer than [min_nodes] valid
    signatures fail with the [ConsensusError] of the outlier test.  In
    both cases the node issues no ledger submission, and two readings
    fail at the gate under the default [min_nodes = 3]. *)
Theorem size_gate_on_given_readings {sorting : PyFloat.Sorting}
    (calculate_confidence : list float -> float) (self : DataAggregator)
    (readings : list SensorReading) :
  let validated := validate_signatures readings in
  let outcome := aggregate_readings calculate_confidence self readings in
  ((Py.len readings < min_nodes self)%Z ->
   outcome = inl ValueError_min_nodes /\
   SpecWords.error_kind ValueError_min_nodes = SpecWords.InsufficientContributors) /\
  ((min_nodes self <= Py.len readings)%Z -> (Py.len validated < min_nodes self)%Z ->
   outcome = inl ConsensusError_outliers) /\
  ((Py.len validated < min_nodes self)%Z ->
   forall submit metrics sensor_name,
     snd (Node.process_consensus calculate_confidence submit self metrics sensor_name readings)
     = []) /\
  (List.length readings = 2%nat ->
   aggregate_readings calculate_confidence default_aggregator readings
   = inl ValueError_min_nodes /\
   forall submit metrics sensor_name,
     snd (Node.process_consensus calculate_confidence submit default_aggregator
            metrics sensor_name readings) = []).
Proof.
  cbv zeta.
  pose proof (filtered_length_le readings) as Hf.
  pose proof (validated_length_le readings) as Hv.
  assert (Hgate : forall agg,
    (Py.len readings < min_nodes agg)%Z ->
    aggregate_readings calculate_confidence agg readings = inl ValueError_min_nodes).
  { intros agg H. unfold aggregate_readings.
    destruct (Z.ltb_spec (Py.len readings) (min_nodes agg)); [reflexivity | lia]. }
  assert (Hfail : (Py.len (validate_signatures readings) < min_nodes self)%Z ->
    exists e, aggregate_readings calculate_confidence self readings = inl e).
  { intros H.
    destruct (aggregate_readings_cases calculate_confidence self readings)
      as [[H1 E] | [(H1 & H2 & E) | [(H1 & H2 & E) | (H1 & H2 & _)]]];
      try (eexists; exact E). lia. }
  split; [| split; [| split]].
  - intros H. split; [now apply Hgate | reflexivity].
  - intros H1 H2.
    destruct (aggregate_readings_cases calculate_confidence self readings)
      as [[H3 E] | [(H3 & H4 & E) | [(H3 & H4 & E) | (H3 & H4 & _)]]];
      try exact E; lia.
  - intros H submit metrics sensor_name. destruct (Hfail H) as [e E].
    unfold Node.process_consensus. rewrite E. reflexivity.
  - intros H2.
    assert (E : aggregate_readings calculate_confidence default_aggregator readings
                = inl ValueError_min_nodes).
    { apply Hgate. unfold Py.len. rewrite H2. reflexivity. }
    split; [exact E |].
    intros submit metrics sensor_name. unfold Node.process_consensus.
    rewrite E. reflexivity.
Qed.

End SizeGateClaims.

(** ** The consensus check *)

Module ConsensusClaims.

Import Aggregator Binary64 Binary64Facts OutlierFacts AggregatorFacts.

(** C3, as stated, fails: for [1, 1, 1.09] the median is 1 and the code
    uses the tolerance 0.05, so that two values of three agree and the
    check fails; with the tolerance [max(0.05, 0.1)] all three would
    agree and the check would succeed. *)
Lemma no_absolute_floor_away_from_zero :
  check_consensus default_aggregator [1; 1; 1.09]%float = false /\
  SpecWords.spec_check_consensus default_aggregator [1; 1; 1.09]%float = true /\
  Statistics.median [1; 1; 1.09]%float = Some 1%float /\
  consensus_tolerance default_aggregator 1 = 0.05%float /\
  SpecWords.spec_tolerance default_aggregator 1 = 0.1%float.
Proof. repeat split; vm_compute; reflexivity. Qed.

(** A median of magnitude 1 or more is not zero. *)
Lemma one_leb_abs_not_zero (m : float) :
  (1 <=? abs m)%float = true -> (m =? 0)%float = false.
Proof.
  rewrite FloatAxioms.leb_spec, FloatAxioms.eqb_spec, abs_spec.
  change (Prim2SF 0) with (S754_zero false).
  change (Prim2SF 1) with (S754_finite false 4503599627370496 (-52)).
  destruct (Prim2SF m) as [s | s | | s mm e]; try discriminate;
    intros _; destruct s; reflexivity.
Qed.

Lemma consensus_tolerance_spec (self : DataAggregator) (m : float) :
  ((m =? 0)%float = true -> consensus_tolerance self m = 0.1%float) /\
  ((1 <=? abs m)%float = true ->
   consensus_tolerance self m = abs (m * outlier_tolerance self)).
Proof.
  unfold consensus_tolerance. split; intros H.
  - now rewrite H.
  - now rewrite (one_leb_abs_not_zero m H).
Qed.

(** C3, amended.  An empty list fails and a single value succeeds
    outright.  For two or more values with median [m], the check counts
    the values [v] with [|v - m|] within a tolerance and succeeds exactly
    when their fraction is at least [consensus_threshold].  The
    tolerance is 0.1 when [m] is zero and [|m * outlier_tolerance|],
    with no absolute floor, when [|m|] is 1 or more.  Differences,
    products and comparisons are those of binary64 arithmetic. *)
Theorem check_consensus_tolerance {sorting : PyFloat.Sorting}
    (self : DataAggregator) (values : list float) :
  (values = [] /\ check_consensus self values = false)
  \/
  (exists v, values = [v] /\ check_consensus self values = true)
  \/
  ((2 <= List.length values)%nat /\
   exists m : float,
     Statistics.median values = Some m /\
     let tau := consensus_tolerance self m in
     let agree := within_threshold self m values in
     ((m =? 0)%float = true -> tau = 0.1%float) /\
     ((1 <=? abs m)%float = true -> tau = abs (m * outlier_tolerance self)) /\
     (forall v, In v agree <-> In v values /\ PyFloat.le (abs (v - m)) tau) /\
     exists ratio : float,
       PyFloat.truediv (Py.len agree) (Py.len values) = Some ratio /\
       (check_consensus self values = true <->
        PyFloat.le (consensus_threshold self) ratio)).
Proof.
  destruct values as [| v1 [| v2 rest]].
  - left. now split.
  - right; left. exists v1. now split.
  - right; right. split; [simpl; lia |].
    destruct (median_some (v1 :: v2 :: rest)) as [m Hm]; [discriminate |].
    exists m. split; [exact Hm |]. cbv zeta.
    destruct (consensus_tolerance_spec self m) as [Hz Hnz].
    split; [exact Hz |]. split; [exact Hnz |].
    split.
    + intros v. unfold within_threshold. rewrite List.filter_In. reflexivity.
    + unfold check_consensus. rewrite Hm. unfold consensus_ratio.
      destruct (PyFloat.truediv _ (Py.len (v1 :: v2 :: rest))) as [ratio |] eqn:Er.
      * exists ratio. split; [reflexivity | reflexivity].
      * exfalso. unfold PyFloat.truediv in Er.
        destruct (Z.eqb_spec (Py.len (v1 :: v2 :: rest)) 0) as [E | _]; [| discriminate].
        unfold Py.len in E. simpl in E. lia.
Qed.

End ConsensusClaims.

(** ** The reputation system *)

Module ReputationFacts.

Import Reputation.

(** What [__init__] fixes and no method changes, together with the bound
    on the stored scores. *)
Record well_formed (self : ReputationSystem) : Prop := {
  wf_weights : reputation_weights self = initial_weights;
  wf_min : min_reputation self = 0;
  wf_max : max_reputation self = 1;
  wf_default : default_reputation self = 8 # 10;
  wf_decay : decay_rate self = 1 # 1000;
  wf_scores : map_Forall (fun _ r => 0 <= r /\ r <= 1) (node_reputations self)
}.

Lemma init_well_formed : well_formed init.
Proof. constructor; try reflexivity. apply map_Forall_empty. Qed.

Lemma clamp_unit (self : ReputationSystem) (x : Q) :
  min_reputation self = 0 -> max_reputation self = 1 ->
  0 <= clamp self x /\ clamp self x <= 1.
Proof.
  intros Hmin Hmax. unfold clamp. rewrite Hmin, Hmax.
  apply PyFacts.clamp_bounds. lra.
Qed.

Lemma get_reputation_well_formed (self : ReputationSystem) (node_id : string) :
  well_formed self -> well_formed (snd (get_reputation self node_id)).
Proof.
  intros [Hw Hmin Hmax Hd Hr Hs]. unfold get_reputation.
  destruct (node_reputations self !! node_id) eqn:E; simpl.
  - now constructor.
  - constructor; simpl; try assumption.
    apply map_Forall_insert_2; [| exact Hs]. rewrite Hd. split; lra.
Qed.

Lemma update_reputation_well_formed (self : ReputationSystem)
    (node_id event_type : string) (details : option (list (string * string))) (now : Z) :
  well_formed self -> well_formed (update_reputation self node_id event_type details now).
Proof.
  intros Hwf. unfold update_reputation.
  destruct (reputation_weights self !! event_type) as [impact |]; [| exact Hwf].
  pose proof (get_reputation_well_formed self node_id Hwf) as Hwf1.
  destruct (get_reputation self node_id) as [current self1]. simpl in Hwf1.
  destruct Hwf1 as [Hw Hmin Hmax Hd Hr Hs].
  constructor; simpl; try assumption.
  apply map_Forall_insert_2; [| exact Hs].
  now apply clamp_unit.
Qed.

Lemma apply_time_decay_well_formed (self : ReputationSystem) :
  well_formed self -> well_formed (apply_time_decay self).
Proof.
  intros [Hw Hmin Hmax Hd Hr Hs]. constructor; simpl; try assumption.
  intros n r Hn. rewrite lookup_fmap in Hn.
  destruct (node_reputations self !! n) as [r0 |]; [| discriminate].
  injection Hn as <-. unfold decayed. now apply clamp_unit.
Qed.

Lemma step_well_formed (self : ReputationSystem) (c : call) :
  well_formed self -> well_formed (step self c).
Proof.
  destruct c; simpl.
  - apply get_reputation_well_formed.
  - apply update_reputation_well_formed.
  - apply apply_time_decay_well_formed.
Qed.

Lemma fold_step_well_formed (calls : list call) :
  forall self, well_formed self -> well_formed (fold_left step calls self).
Proof.
  induction calls as [| c calls IH]; intros self Hwf; simpl; [exact Hwf |].
  apply IH. now apply step_well_formed.
Qed.

Lemma run_well_formed (calls : list call) : well_formed (run calls).
Proof. apply fold_step_well_formed, init_well_formed. Qed.

End ReputationFacts.

Module ReputationClaims.

Import Reputation ReputationFacts.

(** C6.  After any sequence of calls on a fresh reputation system
    (reads, updates for any event type, decay passes) every stored score
    lies in [0, 1]; in particular the score an update stores for its
    node and every score a decay pass stores are clamped to that
    interval. *)
Theorem reputation_in_unit_interval (calls : list call) :
  map_Forall (fun _ r => 0 <= r /\ r <= 1) (node_reputations (run calls)) /\
  (forall (node_id event_type : string) details now impact,
     reputation_weights (run calls) !! event_type = Some impact ->
     exists r,
       node_reputations (update_reputation (run calls) node_id event_type details now)
         !! node_id = Some r /\
       0 <= r /\ r <= 1) /\
  (forall (node_id : string) r,
     node_reputations (apply_time_decay (run calls)) !! node_id = Some r ->
     0 <= r /\ r <= 1).
Proof.
  pose proof (run_well_formed calls) as Hwf.
  split; [apply Hwf |]. split.
  - intros node_id event_type details now impact Hw.
    pose proof (update_reputation_well_formed _ node_id event_type details now Hwf) as Hwf'.
    unfold update_reputation in *. rewrite Hw in *.
    destruct (get_reputation (run calls) node_id) as [current self1].
    simpl in *. eexists. split; [apply lookup_insert_eq |].
    apply (wf_scores _ Hwf' node_id). apply lookup_insert_eq.
  - intros node_id r Hr.
    apply (wf_scores _ (apply_time_decay_well_formed _ Hwf) node_id r Hr).
Qed.







(** C10.  On a system reached by any sequence of calls, an update whose
    event type is not one of the nine recognised kinds changes nothing:
    the stored scores (also the absence of a score for an unknown node)
    and the event log are as before. *)
Theorem unknown_event_is_noop (calls : list call) (node_id event_type : string)
    (details : option (list (string * string))) (now : Z) :
  ~ In event_type
      [ "consensus_success"; "consensus_failure"; "data_quality_high";
        "data_quality_low"; "uptime_good"; "uptime_poor"; "malicious_behavior";
        "stake_increase"; "stake_slash" ]%string ->
  let self := run calls in
  let self' := update_reputation self node_id event_type details now in
  self' = self /\
  node_reputations self' = node_reputations self /\
  reputation_events self' = reputation_events self.
Proof.
  intros Hnot. cbv zeta.
  assert (E : update_reputation (run calls) node_id event_type details now = run calls).
  { unfold update_reputation.
    rewrite (wf_weights _ (run_well_formed calls)).
    unfold initial_weights.
    rewrite (not_elem_of_list_to_map_1 weight_table event_type); [reflexivity |].
    rewrite list_elem_of_In. exact Hnot. }
  rewrite E. now repeat split.
Qed.

Lemma unknown_event_is_noop_example :
  let self := run [CallUpdate "node_1" "consensus_success" None 1700000000] in
  let self' := update_reputation self "node_1" "data_quality" None 1700000001 in
  self' = self /\
  node_reputations self' = node_reputations self /\
  reputation_events self' = reputation_events self.
Proof.
  apply (unknown_event_is_noop
           [CallUpdate "node_1" "consensus_success" None 1700000000]
           "node_1" "data_quality" None 1700000001).
  simpl. intuition discriminate.
Defined.

End ReputationClaims.

(** ** Slashing *)

Module StakingClaims.

Import Staking.

Lemma is_auto_slash_reason_iff (reason : string) :
  is_auto_slash_reason reason = true <->
  In reason [ "data_manipulation"; "double_spending"; "malicious_consensus";
              "stake_below_minimum" ]%string.
Proof.
  unfold is_auto_slash_reason. rewrite existsb_exists. split.
  - intros (x & Hx & E). apply String.eqb_eq in E. now subst.
  - intros H. exists reason. split; [exact H | apply String.eqb_refl].
Qed.

Lemma capped_amount_min (w : World) (node : string) (amount : Z) :
  capped_amount w node amount = Z.min amount (node_stake w node).
Proof.
  unfold capped_amount. destruct (Z.ltb_spec (node_stake w node) amount); lia.
Qed.

(** C9, as stated, fails: a slash for an automatic reason is approved
    without a vote, but when sending the slash transaction raises, the
    call returns [False] and neither a record nor a reputation change is
    made. *)
Lemma approved_slash_without_record :
  is_consensus_slashing Samples.failing_transaction "0xmalicious" "data_manipulation" = true /\
  slash_node Samples.fresh_manager Samples.failing_transaction
    "0xmalicious" 100000000000000000000 "data_manipulation"
  = (false, Samples.fresh_manager).
Proof. split; reflexivity. Qed.

(** C9, amended.  A slash is approved without a vote when the reason is
    one of the four automatic ones, and otherwise only when the votes in
    favour are at least 75% of the votes cast.  Without approval nothing
    changes.  With approval, and when the slash transaction is sent, the
    amount is capped at the target's current stake, one slash record
    with that amount is appended, and -0.20 is applied to the target's
    staking reputation score (1.0 when absent), clamped to [0, 1]; all
    other scores are kept.  When sending the transaction raises, nothing
    is recorded. *)
Theorem slash_node_protocol (self : StakingManager) (w : World)
    (malicious_node : string) (amount : Z) (reason : string) :
  let auto := In reason [ "data_manipulation"; "double_spending"; "malicious_consensus";
                          "stake_below_minimum" ]%string in
  let total := (votes_for w + votes_against w)%Z in
  let approved := is_consensus_slashing w malicious_node reason in
  (auto -> approved = true) /\
  (~ auto ->
   (approved = true <->
    total <> 0%Z /\ 75 # 100 <= inject_Z (votes_for w) / inject_Z total)) /\
  (approved = false -> slash_node self w malicious_node amount reason = (false, self)) /\
  (approved = true -> send_transaction w = None ->
   slash_node self w malicious_node amount reason = (false, self)) /\
  (forall tx_hash, approved = true -> send_transaction w = Some tx_hash ->
   exists self',
     slash_node self w malicious_node amount reason = (true, self') /\
     let slashed := Z.min amount (node_stake w malicious_node) in
     let old_score := get_reputation_score self malicious_node in
     (slashed <= node_stake w malicious_node)%Z /\
     slash_events self' =
       slash_events self ++
       [ {| se_node_address := malicious_node; se_amount := slashed; se_reason := reason;
            se_timestamp := now w; se_tx_hash := tx_hash |} ] /\
     reputation_scores self' !! malicious_node
       = Some (Py.max 0 (Py.min 1 (old_score + - (2 # 10)))) /\
     (2 # 10 <= old_score -> old_score <= 1 ->
      get_reputation_score self' malicious_node == old_score - (2 # 10)) /\
     0 <= get_reputation_score self' malicious_node /\
     get_reputation_score self' malicious_node <= 1 /\
     (forall other, other <> malicious_node ->
        reputation_scores self' !! other = reputation_scores self !! other)).
Proof.
  cbv zeta. unfold is_consensus_slashing.
  pose proof (is_auto_slash_reason_iff reason) as Hauto.
  split; [| split; [| split; [| split]]].
  - intros H. apply Hauto in H. now rewrite H.
  - intros H. destruct (is_auto_slash_reason reason) eqn:E.
    + exfalso. apply H, Hauto. reflexivity.
    + unfold vote_approves.
      destruct (Z.eqb_spec (votes_for w + votes_against w) 0) as [E0 | E0].
      * split; [discriminate | intros [H0 _]; contradiction].
      * rewrite Qle_bool_iff. split; [intros Hq; now split | intros [_ Hq]; exact Hq].
  - intros H. unfold slash_node, is_consensus_slashing. now rewrite H.
  - intros H Htx. unfold slash_node, is_consensus_slashing. now rewrite H, Htx.
  - intros tx_hash H Htx. unfold slash_node, is_consensus_slashing. rewrite H, Htx. simpl.
    eexists. split; [reflexivity |].
    rewrite capped_amount_min. unfold get_reputation_score. simpl.
    rewrite lookup_insert_eq. simpl.
    split; [lia |]. split; [reflexivity |]. split; [reflexivity |].
    split; [| split; [| split]].
    + intros Hlo Hhi.
      rewrite (PyFacts.clamp_id 0 1); [ring | lra | lra].
    + apply PyFacts.clamp_bounds. lra.
    + apply PyFacts.clamp_bounds. lra.
    + intros other Hne. now rewrite lookup_insert_ne.
Qed.

End StakingClaims.

(** ** Histograms *)

Module MetricsFacts.

Import Metrics.

Lemma last_n_short {A : Type} (k : nat) (l : list A) :
  (List.length l <= k)%nat -> Py.last_n k l = l.
Proof.
  intros H. unfold Py.last_n.
  replace (List.length l - k)%nat with 0%nat by lia. reflexivity.
Qed.

Lemma last_n_length {A : Type} (k : nat) (l : list A) :
  List.length (Py.last_n k l) = Nat.min k (List.length l).
Proof. unfold Py.last_n. rewrite List.length_skipn. lia. Qed.

(** Appending to the last [k] elements and cutting again is the same as
    appending to the whole list and cutting once. *)
Lemma last_n_snoc {A : Type} (k : nat) (l : list A) (x : A) :
  (1 <= k)%nat -> Py.last_n k (Py.last_n k l ++ [x]) = Py.last_n k (l ++ [x]).
Proof.
  intros Hk.
  destruct (Nat.le_gt_cases (List.length l) k) as [Hle | Hgt].
  - now rewrite (last_n_short k l Hle).
  - assert (Hsplit : exists a b, l = a ++ b /\ List.length b = k).
    { exists (firstn (List.length l - k) l), (skipn (List.length l - k) l).
      split; [symmetry; apply firstn_skipn |].
      rewrite List.length_skipn. lia. }
    destruct Hsplit as (a & b & -> & Hb).
    assert (Hcut : forall c : list A, Py.last_n k (a ++ b ++ c) = Py.last_n k (b ++ c)).
    { intros c. unfold Py.last_n. rewrite !List.length_app.
      replace (List.length a + (List.length b + List.length c) - k)%nat
        with ((List.length b + List.length c - k) + List.length a)%nat by lia.
      rewrite <- List.skipn_skipn.
      replace (skipn (List.length a) (a ++ b ++ c)) with (b ++ c); [reflexivity |].
      rewrite List.skipn_app, List.skipn_all, Nat.sub_diag. reflexivity. }
    rewrite <- List.app_assoc, Hcut.
    replace (Py.last_n k (a ++ b)) with b; [reflexivity |].
    pose proof (Hcut []) as Hc. rewrite !List.app_nil_r in Hc. rewrite Hc.
    symmetry. apply last_n_short. lia.
Qed.

(** What [record_histogram] stores under its key. *)
Lemma record_histogram_stored (self : MetricsCollector) (name : string) (value : Q)
    (labels : option (list (string * string))) :
  histograms (record_histogram self name value labels) !! metric_key name labels
  = Some (Py.last_n 1000 (default [] (histograms self !! metric_key name labels) ++ [value])).
Proof.
  unfold record_histogram. simpl. rewrite lookup_insert_eq. f_equal.
  destruct (Nat.ltb_spec 1000
              (List.length (default [] (histograms self !! metric_key name labels) ++ [value])))
    as [H | H]; [reflexivity |].
  symmetry. now apply last_n_short.
Qed.

Lemma record_histogram_other (self : MetricsCollector) (name : string) (value : Q)
    (labels : option (list (string * string))) (key : string) :
  metric_key name labels <> key ->
  histograms (record_histogram self name value labels) !! key = histograms self !! key.
Proof. intros H. unfold record_histogram. simpl. now rewrite lookup_insert_ne. Qed.

Lemma record_all_snoc (samples : list sample) (s : sample) :
  record_all (samples ++ [s])
  = record_histogram (record_all samples) (s_name s) (s_value s) (s_labels s).
Proof. unfold record_all. now rewrite fold_left_app. Qed.

Lemma recorded_under_snoc (key : string) (samples : list sample) (s : sample) :
  recorded_under key (samples ++ [s])
  = recorded_under key samples
    ++ (if String.eqb (metric_key (s_name s) (s_labels s)) key then [s_value s] else []).
Proof.
  unfold recorded_under. rewrite List.filter_app, map_app. simpl.
  now destruct (String.eqb _ key).
Qed.

(** The retained samples of a key are the last 1000 recorded under it. *)
Lemma record_all_stored (key : string) (samples : list sample) :
  histograms (record_all samples) !! key
  = match recorded_under key samples with
    | [] => None
    | recorded => Some (Py.last_n 1000 recorded)
    end.
Proof.
  induction samples as [| s samples IH] using rev_ind; [reflexivity |].
  rewrite record_all_snoc, recorded_under_snoc.
  destruct (String.eqb_spec (metric_key (s_name s) (s_labels s)) key) as [E | E].
  - subst key. rewrite record_histogram_stored, IH.
    destruct (recorded_under _ samples) as [| v vs] eqn:Er; simpl; [reflexivity |].
    rewrite last_n_snoc by lia. reflexivity.
  - rewrite (record_histogram_other _ _ _ _ key E), IH, app_nil_r. reflexivity.
Qed.

(** [int] of a non-negative float is a non-negative integer. *)
Lemma int_nonneg (x : Q) : 0 <= x -> (0 <= Py.int x)%Z.
Proof.
  intros H. unfold Py.int. apply Z.quot_pos; [| lia].
  unfold Qle in H. simpl in H. lia.
Qed.

End MetricsFacts.

Module MetricsClaims.

Import Metrics MetricsFacts.

(** C8, as stated, fails in its second half: with the samples 1 and 2
    retained, the exported P50 is the sample 2, whereas linear
    interpolation over the sorted samples gives 1.5. *)
Lemma percentile_without_interpolation :
  let self := record_all Samples.two_latencies in
  histograms self !! "blockchain_latency_ms"%string = Some [1; 2] /\
  get_percentile self "blockchain_latency_ms" 50 = Some 2 /\
  exists q, SpecWords.interpolated_percentile [1; 2] 50 = Some q /\
            q == 3 # 2 /\ ~ 2 == q.
Proof.
  cbv zeta. split; [vm_compute; reflexivity |].
  split; [vm_compute; reflexivity |].
  eexists. split; [vm_compute; reflexivity |].
  split; [vm_compute; reflexivity | vm_compute; discriminate].
Qed.

(** C8, amended.  For every histogram key the collector retains the
    last 1000 samples recorded under it, in order.  A percentile [p >= 0]
    of a retained histogram is computed on demand as the retained sample
    at position [min(int(p / 100 * n), n - 1)] of the ascending sort of
    the [n] retained samples: it is one of the samples, and no
    interpolation takes place.  A histogram that was never recorded
    gives 0. *)
Theorem histogram_retention_and_percentile (samples : list sample) (key : string) :
  let self := record_all samples in
  let recorded := recorded_under key samples in
  histograms self !! key
  = match recorded with [] => None | _ => Some (Py.last_n 1000 recorded) end /\
  (forall stored, histograms self !! key = Some stored ->
     (1 <= List.length stored <= 1000)%nat) /\
  (histograms self !! key = None -> forall p, get_percentile self key p = Some 0) /\
  (forall stored p, histograms self !! key = Some stored -> 0 <= p ->
     let n := Py.len stored in
     let index := Z.min (Py.int (p / 100 * inject_Z n)) (n - 1) in
     (0 <= index < n)%Z /\
     exists v, get_percentile self key p = Some v /\
               nth_error (Py.sorted stored) (Z.to_nat index) = Some v /\
               In v stored).
Proof.
  cbv zeta. pose proof (record_all_stored key samples) as Hst.
  assert (Hlen : forall stored, histograms (record_all samples) !! key = Some stored ->
                 (1 <= List.length stored <= 1000)%nat).
  { intros stored Hs. rewrite Hst in Hs.
    destruct (recorded_under key samples) as [| v vs]; [discriminate |].
    injection Hs as <-. rewrite last_n_length. cbn [List.length]. lia. }
  split; [rewrite Hst; now destruct (recorded_under key samples) |].
  split; [exact Hlen |]. split.
  - intros Hnone p. unfold get_percentile. now rewrite Hnone.
  - intros stored p Hs Hp. specialize (Hlen stored Hs).
    pose proof (SortedFacts.sorted_length stored) as Hsl.
    assert (Hint : (0 <= Py.int (p / 100 * inject_Z (Py.len stored)))%Z).
    { apply int_nonneg. apply Qmult_le_0_compat.
      - apply Qmult_le_0_compat; [exact Hp | vm_compute; discriminate].
      - unfold Py.len, Qle. simpl. lia. }
    assert (Hidx : (0 <= Z.min (Py.int (p / 100 * inject_Z (Py.len stored))) (Py.len stored - 1)
                    < Py.len stored)%Z).
    { unfold Py.len in *. lia. }
    split; [exact Hidx |].
    unfold get_percentile. rewrite Hs.
    assert (Hlv : Py.len (Py.sorted stored) = Py.len stored)
      by (unfold Py.len; now rewrite Hsl).
    destruct (Py.sorted stored) as [| y ys] eqn:Ey; [simpl in Hsl; lia |].
    rewrite Hlv. unfold Py.index.
    destruct (Z.leb_spec 0 (Z.min (Py.int (p / 100 * inject_Z (Py.len stored)))
                              (Py.len stored - 1))) as [_ | Hneg]; [| lia].
    destruct (nth_error (y :: ys)
                (Z.to_nat (Z.min (Py.int (p / 100 * inject_Z (Py.len stored)))
                             (Py.len stored - 1)))) as [v |] eqn:Ev.
    + exists v. split; [reflexivity |]. split; [reflexivity |].
      apply nth_error_In in Ev. rewrite <- Ey in Ev.
      apply (Permutation_in _ (SortedFacts.sorted_perm stored)). exact Ev.
    + apply nth_error_None in Ev. unfold Py.len in *. lia.
Qed.

End MetricsClaims.

(** ** Further properties of the aggregator *)

Module AggregatorExtras.

Import Aggregator Binary64 Binary64Facts OutlierFacts AggregatorFacts AggregatorScores.

Lemma fold_max_timestamp (rs : list SensorReading) :
  forall m : Z,
    let f := fold_left (fun m r' => if (m <? timestamp r')%Z then timestamp r' else m) rs m in
    (m <= f)%Z /\
    (forall r, In r rs -> (timestamp r <= f)%Z) /\
    (f = m \/ exists r, In r rs /\ timestamp r = f).
Proof.
  induction rs as [| r rs IH]; intros m; simpl.
  - split; [lia |]. split; [intros r [] | now left].
  - specialize (IH (if (m <? timestamp r)%Z then timestamp r else m)).
    cbv zeta in IH. destruct IH as (H1 & H2 & H3).
    destruct (Z.ltb_spec m (timestamp r)) as [Hlt | Hge].
    + split; [lia |]. split.
      * intros r' [<- | Hin]; [lia | now apply H2].
      * right. destruct H3 as [-> | (r' & Hin & E)]; [exists r | exists r']; auto.
    + split; [lia |]. split.
      * intros r' [<- | Hin]; [lia | now apply H2].
      * destruct H3 as [-> | (r' & Hin & E)]; [now left | right; exists r'; auto].
Qed.

Lemma max_timestamp_is_max (rs : list SensorReading) (ts : Z) :
  max_timestamp rs = Some ts ->
  (forall r, In r rs -> (timestamp r <= ts)%Z) /\ (exists r, In r rs /\ timestamp r = ts).
Proof.
  destruct rs as [| r rs]; [discriminate |]. simpl. intros E. injection E as <-.
  destruct (fold_max_timestamp rs (timestamp r)) as (H1 & H2 & H3). cbv zeta in *.
  split.
  - intros r' [<- | Hin]; [exact H1 | now apply H2].
  - destruct H3 as [-> | (r' & Hin & E)]; [exists r | exists r']; auto.
Qed.

Lemma sublist_In {A : Type} (l1 l2 : list A) (x : A) :
  sublist l1 l2 -> In x l1 -> In x l2.
Proof.
  intros Hs Hin. apply list_elem_of_In. apply list_elem_of_In in Hin.
  eapply sublist_subseteq; eauto.
Qed.

(** X1.  A result of [aggregate_readings] carries the latest timestamp
    of the signature-valid readings: no valid reading is later, and one
    of them has that timestamp. *)
Theorem result_timestamp_is_latest {sorting : PyFloat.Sorting}
    (calculate_confidence : list float -> float) (self : DataAggregator)
    (readings : list SensorReading) (res : AggregationResult) :
  aggregate_readings calculate_confidence self readings = inr res ->
  (forall r, In r (validate_signatures readings) -> (timestamp r <= res_timestamp res)%Z) /\
  (exists r, In r readings /\ signature_ok r = true /\ timestamp r = res_timestamp res).
Proof.
  intros Hres.
  destruct (aggregate_readings_cases calculate_confidence self readings)
    as [[H1 E] | [(H1 & H2 & E) | [(H1 & H2 & E) | (H1 & H2 & m & ts & Hm & Hts & E)]]];
    rewrite E in Hres; try discriminate.
  injection Hres as <-. simpl.
  destruct (max_timestamp_is_max _ _ Hts) as [Hall (r & Hin & Er)].
  split; [exact Hall |].
  exists r. unfold validate_signatures in Hin. apply List.filter_In in Hin.
  destruct Hin. auto.
Qed.

Lemma result_timestamp_is_latest_example :
  aggregate_readings Samples.full_confidence default_aggregator
    [Samples.signed 23 "node_1"; Samples.signed 23 "node_2"; Samples.signed 23 "node_3"]
  = inr {| res_value := 23; res_timestamp := 1700000000; res_confidence := 1;
           res_nodes_participated := 3; res_outliers_removed := 0 |} /\
  ((forall r, In r (validate_signatures
                      [Samples.signed 23 "node_1"; Samples.signed 23 "node_2";
                       Samples.signed 23 "node_3"]) ->
              (timestamp r <= 1700000000)%Z) /\
   (exists r, In r [Samples.signed 23 "node_1"; Samples.signed 23 "node_2";
                    Samples.signed 23 "node_3"] /\
              signature_ok r = true /\ timestamp r = 1700000000%Z)).
Proof.
  split; [vm_compute; reflexivity |].
  apply (result_timestamp_is_latest Samples.full_confidence default_aggregator
           [Samples.signed 23 "node_1"; Samples.signed 23 "node_2"; Samples.signed 23 "node_3"]
           {| res_value := 23; res_timestamp := 1700000000; res_confidence := 1;
              res_nodes_participated := 3; res_outliers_removed := 0 |}).
  vm_compute; reflexivity.
Defined.

(** X2.  In a result, the participating nodes are the values kept by the
    outlier filter plus the outliers removed, the number of outliers is
    not negative, and the value is the median of the kept values: the
    value of one signature-valid reading when their number is odd, and
    the halved sum of the values of two of them, as binary64 arithmetic
    rounds it, when their number is even. *)
Theorem result_accounting {sorting : PyFloat.Sorting}
    (calculate_confidence : list float -> float) (self : DataAggregator)
    (readings : list SensorReading) (res : AggregationResult) :
  aggregate_readings calculate_confidence self readings = inr res ->
  let filtered := remove_outliers (map value (validate_signatures readings)) in
  (0 <= res_outliers_removed res)%Z /\
  res_nodes_participated res = (Py.len filtered + res_outliers_removed res)%Z /\
  (res_nodes_participated res <= Py.len readings)%Z /\
  Statistics.median filtered = Some (res_value res) /\
  exists a b : SensorReading,
    In a readings /\ In b readings /\ signature_ok a = true /\ signature_ok b = true /\
    In (value a) filtered /\ In (value b) filtered /\
    ((Nat.odd (List.length filtered) = true /\ res_value res = value a)
     \/
     (Nat.odd (List.length filtered) = false /\
      res_value res = ((value a + value b) / 2)%float)).
Proof.
  intros Hres. cbv zeta.
  pose proof (filtered_length_le readings) as Hf.
  pose proof (validated_length_le readings) as Hv.
  destruct (aggregate_readings_cases calculate_confidence self readings)
    as [[H1 E] | [(H1 & H2 & E) | [(H1 & H2 & E) | (H1 & H2 & m & ts & Hm & Hts & E)]]];
    rewrite E in Hres; try discriminate.
  injection Hres as <-. simpl.
  assert (Hl : Py.len (map value (validate_signatures readings))
               = Py.len (validate_signatures readings)).
  { unfold Py.len. now rewrite length_map. }
  split; [lia |]. split; [lia |]. split; [lia |]. split; [exact Hm |].
  set (filtered := remove_outliers (map value (validate_signatures readings))) in *.
  assert (Hback : forall x, In x filtered ->
                  exists r, In r readings /\ signature_ok r = true /\ value r = x).
  { intros x Hx.
    apply (sublist_In _ _ _ (remove_outliers_sublist _)) in Hx.
    apply List.in_map_iff in Hx. destruct Hx as (r & <- & Hr).
    unfold validate_signatures in Hr. apply List.filter_In in Hr.
    exists r. tauto. }
  destruct (median_cases filtered (check_consensus_nonempty _ _ H2))
    as (m' & Hm' & [[Ho Hin] | (Ho & a & b & Ha & Hb & Eab)]);
    rewrite Hm in Hm'; injection Hm' as <-.
  - destruct (Hback m Hin) as (r & Hr & Hs & Er).
    exists r, r. rewrite Er. repeat split; auto.
  - destruct (Hback a Ha) as (ra & Hra & Hsa & Era).
    destruct (Hback b Hb) as (rb & Hrb & Hsb & Erb).
    exists ra, rb. rewrite Era, Erb. repeat split; auto.
Qed.

Lemma result_accounting_example :
  aggregate_readings Samples.full_confidence default_aggregator
    [Samples.signed 23 "node_1"; Samples.signed 23.1 "node_2"; Samples.signed 23 "node_3";
     Samples.signed 23.1 "node_4"]
  = inr {| res_value := 23.05; res_timestamp := 1700000000; res_confidence := 1;
           res_nodes_participated := 4; res_outliers_removed := 0 |} /\
  exists a b : SensorReading,
    In a [Samples.signed 23 "node_1"; Samples.signed 23.1 "node_2";
          Samples.signed 23 "node_3"; Samples.signed 23.1 "node_4"] /\
    In b [Samples.signed 23 "node_1"; Samples.signed 23.1 "node_2";
          Samples.signed 23 "node_3"; Samples.signed 23.1 "node_4"] /\
    signature_ok a = true /\ signature_ok b = true /\
    (23.05 = (value a + value b) / 2)%float.
Proof.
  split; [vm_compute; reflexivity |].
  destruct (result_accounting Samples.full_confidence default_aggregator
           [Samples.signed 23 "node_1"; Samples.signed 23.1 "node_2";
            Samples.signed 23 "node_3"; Samples.signed 23.1 "node_4"]
           {| res_value := 23.05; res_timestamp := 1700000000; res_confidence := 1;
              res_nodes_participated := 4; res_outliers_removed := 0 |})
    as (_ & _ & _ & _ & a & b & Ha & Hb & Hsa & Hsb & _ & _ & [[Ho _] | [_ E]]).
  - vm_compute; reflexivity.
  - vm_compute in Ho. discriminate Ho.
  - exists a, b. repeat split; auto.
Defined.

Lemma sublist_map {A B : Type} (f : A -> B) (l1 l2 : list A) :
  sublist l1 l2 -> sublist (map f l1) (map f l2).
Proof. induction 1; simpl; now constructor. Qed.

Lemma validate_signatures_twice (readings : list SensorReading) :
  validate_signatures (validate_signatures readings) = validate_signatures readings.
Proof. apply filter_twice. Qed.

(** X3.  Readings with a rejected signature have no influence on the
    outcome once enough valid ones are present: when at least
    [min_nodes] readings are signature-valid, aggregating all readings
    gives the same result or the same error as aggregating the valid
    ones alone. *)
Theorem rejected_signatures_do_not_count {sorting : PyFloat.Sorting}
    (calculate_confidence : list float -> float) (self : DataAggregator)
    (readings : list SensorReading) :
  (min_nodes self <= Py.len (validate_signatures readings))%Z ->
  aggregate_readings calculate_confidence self readings
  = aggregate_readings calculate_confidence self (validate_signatures readings).
Proof.
  intros Hn. pose proof (validated_length_le readings) as Hv.
  unfold aggregate_readings. rewrite validate_signatures_twice.
  destruct (Z.ltb_spec (Py.len readings) (min_nodes self)) as [H | _]; [lia |].
  destruct (Z.ltb_spec (Py.len (validate_signatures readings)) (min_nodes self)) as [H | _];
    [lia | reflexivity].
Qed.

Lemma rejected_signatures_do_not_count_example :
  (min_nodes default_aggregator
   <= Py.len (validate_signatures
                (Samples.unsigned 99 "peer_8001" :: Samples.two_readings
                 ++ [Samples.signed 23 "node_3"])))%Z /\
  aggregate_readings Samples.full_confidence default_aggregator
    (Samples.unsigned 99 "peer_8001" :: Samples.two_readings ++ [Samples.signed 23 "node_3"])
  = aggregate_readings Samples.full_confidence default_aggregator
      (validate_signatures
         (Samples.unsigned 99 "peer_8001" :: Samples.two_readings
          ++ [Samples.signed 23 "node_3"])).
Proof.
  split; [vm_compute; discriminate |].
  apply (rejected_signatures_do_not_count Samples.full_confidence default_aggregator
           (Samples.unsigned 99 "peer_8001" :: Samples.two_readings
            ++ [Samples.signed 23 "node_3"])).
  vm_compute; discriminate.
Defined.


(** The deviation of the median from itself is never above the
    threshold, whatever the median is: for a finite median it is zero,
    for an infinite one it is not-a-number, which compares false. *)
Lemma median_does_not_deviate (m c : float) : (abs (m * c) <? abs (m - m))%float = false.
Proof.
  rewrite FloatAxioms.ltb_spec, !abs_spec, sub_spec. unfold SF64sub.
  destruct (Prim2SF m) as [s | s | | s mm e].
  - replace (SFsub prec emax (S754_zero s) (S754_zero s)) with (S754_zero false)
      by now destruct s.
    apply SFltb_abs_zero.
  - replace (SFsub prec emax (S754_infinity s) (S754_infinity s)) with S754_nan
      by now destruct s.
    unfold SFltb. simpl. now destruct (SFabs _).
  - unfold SFltb. simpl. now destruct (SFabs _).
  - rewrite SFsub_diag. apply SFltb_abs_zero.
Qed.

(** Around a zero median every value that is neither a zero nor
    not-a-number deviates. *)
Lemma deviates_from_zero (m v : float) :
  (m =? 0)%float = true -> (v =? 0)%float = false -> is_nan v = false ->
  (abs (m * 0.1) <? abs (v - m))%float = true.
Proof.
  rewrite is_nan_spec, !FloatAxioms.eqb_spec, FloatAxioms.ltb_spec, !abs_spec,
    sub_spec, mul_spec.
  change (Prim2SF 0) with (S754_zero false).
  remember (Prim2SF 0.1) as c eqn:Ec. vm_compute in Ec. subst c.
  unfold SF64sub, SF64mul.
  destruct (Prim2SF m) as [sm | sm | | sm mm em]; intros Hm; try discriminate Hm;
    try (destruct sm; discriminate Hm).
  destruct (Prim2SF v) as [sv | sv | | sv mv ev]; intros Hv Hn;
    try discriminate Hn; try discriminate Hv; reflexivity.
Qed.

(** X5.  [detect_malicious_nodes] reports nobody on fewer than three
    readings.  Otherwise it reports, in input order, the nodes whose
    value is farther from the median than a tenth of the median's
    magnitude, both computed in binary64 arithmetic: a reading whose
    value is the median is never reported, and when the median is zero
    every reading whose value is neither zero nor not-a-number is. *)
Theorem detect_malicious_nodes_spec {sorting : PyFloat.Sorting}
    (readings : list SensorReading) :
  ((List.length readings < 3)%nat /\ detect_malicious_nodes readings = [])
  \/
  ((3 <= List.length readings)%nat /\
   exists m : float,
     Statistics.median (map value readings) = Some m /\
     detect_malicious_nodes readings = map node_id (List.filter (deviates m) readings) /\
     sublist (detect_malicious_nodes readings) (map node_id readings) /\
     (forall r, deviates m r = true <-> (abs (m * 0.1) <? abs (value r - m))%float = true) /\
     (forall r, value r = m -> deviates m r = false) /\
     ((m =? 0)%float = true ->
      forall r, In r readings -> (value r =? 0)%float = false -> is_nan (value r) = false ->
                In (node_id r) (detect_malicious_nodes readings))).
Proof.
  unfold detect_malicious_nodes.
  destruct (Nat.ltb_spec (List.length readings) 3) as [Hlt | Hge]; [left; now split |].
  right. split; [exact Hge |].
  destruct (median_some (map value readings)) as [m Hm].
  { destruct readings; [simpl in Hge; lia | discriminate]. }
  exists m. rewrite Hm. split; [reflexivity |]. split; [reflexivity |].
  split; [| split; [reflexivity | split]].
  - apply sublist_map, filter_sublist.
  - intros r Hr. unfold deviates. rewrite Hr. apply median_does_not_deviate.
  - intros Hz r Hin Hnz Hnan. apply List.in_map, List.filter_In. split; [exact Hin |].
    unfold deviates. now apply deviates_from_zero.
Qed.

(** The test is the one the interpreter makes: of the readings
    [23.0, 23.0, 25.3] the third is reported, its computed deviation
    being a float just above the computed threshold. *)
Lemma detect_malicious_nodes_rounded :
  detect_malicious_nodes
    [Samples.signed 23 "node_1"; Samples.signed 23 "node_2"; Samples.signed 25.3 "node_3"]
  = ["node_3"%string].
Proof. vm_compute. reflexivity. Qed.

(** X6.  The outlier filter never empties a list: its result is a
    sub-sequence of the input, and a non-empty input gives a non-empty
    result, thanks to the fallback to the unfiltered input.  The
    fallback is taken: on four infinite readings the interquartile range
    [inf - inf] is not-a-number, no value is within the bounds, and the
    input is returned as it is. *)
Theorem outlier_filter_never_empties {sorting : PyFloat.Sorting} :
  (forall values : list float,
     sublist (remove_outliers values) values /\
     (values <> [] -> remove_outliers values <> []) /\
     (forall v, In v (remove_outliers values) -> In v values)) /\
  List.filter (within_bounds (infinity - 1.5 * (infinity - infinity))
                             (infinity + 1.5 * (infinity - infinity)))
    [infinity; infinity; infinity; infinity] = [] /\
  remove_outliers [infinity; infinity; infinity; infinity]
  = [infinity; infinity; infinity; infinity].
Proof.
  split; [| split].
  - intros values. split; [apply remove_outliers_sublist |]. split.
    + intros Hne.
      destruct (Nat.lt_ge_cases (List.length values) 4) as [Hlt | Hge].
      * now rewrite remove_outliers_short.
      * destruct (quartiles_exist values Hge) as (q1 & q3 & H1 & H3).
        rewrite (remove_outliers_unfold values q1 q3 Hge H1 H3).
        destruct (List.filter _ values); [exact Hne | discriminate].
    + intros v. apply sublist_In, remove_outliers_sublist.
  - vm_compute. reflexivity.
  - assert (Hq : forall i q, nth_error (PyFloat.sorted [infinity; infinity; infinity; infinity]) i
                             = Some q -> q = infinity).
    { intros i q Hq. apply nth_error_In in Hq. apply (proj1 (float_sorted_In _ _)) in Hq.
      simpl in Hq. intuition congruence. }
    destruct (quartiles_exist [infinity; infinity; infinity; infinity]) as (q1 & q3 & H1 & H3);
      [simpl; lia |].
    rewrite (remove_outliers_unfold _ q1 q3); [| simpl; lia | exact H1 | exact H3].
    rewrite (Hq _ _ H1), (Hq _ _ H3). vm_compute. reflexivity.
Qed.

Section EqualValues.

Context {sorting : PyFloat.Sorting}.

Lemma median_of_equal_values (values : list float) (v : float) :
  values <> [] -> ((v + v) / 2)%float = v ->
  (forall x, In x values -> x = v) -> Statistics.median values = Some v.
Proof.
  intros Hne Hmean Hall.
  destruct (median_cases values Hne) as (m & Hm & [[_ Hin] | (_ & a & b & Ha & Hb & E)]);
    rewrite Hm; f_equal.
  - now apply Hall.
  - rewrite E, (Hall a Ha), (Hall b Hb). exact Hmean.
Qed.

Lemma remove_outliers_of_equal_values (values : list float) (v : float) :
  is_finite v = true ->
  (forall x, In x values -> x = v) -> remove_outliers values = values.
Proof.
  intros Hfin Hall.
  destruct (Nat.lt_ge_cases (List.length values) 4) as [Hlt | Hge];
    [now apply remove_outliers_short |].
  destruct (quartiles_exist values Hge) as (q1 & q3 & H1 & H3).
  rewrite (remove_outliers_unfold values q1 q3 Hge H1 H3).
  assert (E1 : q1 = v) by (apply Hall, float_sorted_In, (nth_error_In _ _ H1)).
  assert (E3 : q3 = v) by (apply Hall, float_sorted_In, (nth_error_In _ _ H3)).
  rewrite E1, E3, (sub_diag v Hfin).
  change (1.5 * 0)%float with 0%float.
  rewrite filter_all; [now destruct values |].
  intros x Hx. rewrite (Hall x Hx). unfold within_bounds.
  now rewrite (sub_zero_leb v Hfin), (leb_add_zero v Hfin).
Qed.

Lemma check_consensus_of_equal_values (self : DataAggregator) (values : list float)
    (v : float) :
  (consensus_threshold self <=? 1)%float = true ->
  is_nan (outlier_tolerance self) = false ->
  is_finite v = true -> ((v + v) / 2)%float = v ->
  values <> [] ->
  (forall x, In x values -> x = v) -> check_consensus self values = true.
Proof.
  intros Ht Hot Hfin Hmean Hne Hall.
  destruct values as [| v1 [| v2 rest]]; [congruence | reflexivity |].
  unfold check_consensus.
  rewrite (median_of_equal_values _ v Hne Hmean Hall).
  unfold consensus_ratio, within_threshold. rewrite filter_all.
  - rewrite truediv_self; [exact Ht | unfold Py.len; simpl; lia].
  - intros x Hx. rewrite (Hall x Hx), (sub_diag v Hfin).
    change (abs 0) with 0%float. unfold consensus_tolerance.
    destruct (v =? 0)%float eqn:Ez; [reflexivity |].
    now apply zero_leb_abs_mul.
Qed.

End EqualValues.

(** X7.  Unanimous readings reach consensus: when the signature-valid
    readings all report the same finite value [v], whose double halves
    back to it ([(v + v) / 2 = v], that is, [v + v] does not overflow),
    there are at least [min_nodes] of them, the threshold is at most 1
    and the tolerance is a number, a result is returned with that value,
    no outlier removed and all valid readings counted. *)
Theorem unanimous_readings_reach_consensus {sorting : PyFloat.Sorting}
    (calculate_confidence : list float -> float) (self : DataAggregator)
    (readings : list SensorReading) (v : float) :
  (consensus_threshold self <=? 1)%float = true ->
  is_nan (outlier_tolerance self) = false ->
  (1 <= min_nodes self)%Z ->
  (min_nodes self <= Py.len (validate_signatures readings))%Z ->
  is_finite v = true ->
  ((v + v) / 2)%float = v ->
  (forall r, In r readings -> signature_ok r = true -> value r = v) ->
  exists res,
    aggregate_readings calculate_confidence self readings = inr res /\
    res_value res = v /\
    res_outliers_removed res = 0%Z /\
    res_nodes_participated res = Py.len (validate_signatures readings).
Proof.
  intros Ht Hot Hmin Hn Hfin Hmean Hall.
  remember (map value (validate_signatures readings)) as values eqn:Ev.
  assert (Hv : forall x, In x values -> x = v).
  { intros x Hx. rewrite Ev in Hx.
    apply List.in_map_iff in Hx. destruct Hx as (r & <- & Hr).
    apply List.filter_In in Hr. destruct Hr. now apply Hall. }
  pose proof (remove_outliers_of_equal_values values v Hfin Hv) as Hro.
  assert (Hlen : Py.len values = Py.len (validate_signatures readings)).
  { rewrite Ev. unfold Py.len. now rewrite length_map. }
  assert (Hne : values <> []).
  { intros E. rewrite E in Hlen. unfold Py.len in Hlen at 1. simpl in Hlen. lia. }
  pose proof (check_consensus_of_equal_values self values v Ht Hot Hfin Hmean Hne Hv) as Hc.
  pose proof (median_of_equal_values values v Hne Hmean Hv) as Hmed.
  destruct (aggregate_readings_cases calculate_confidence self readings)
    as [[H1 E] | [(H1 & H2 & E) | [(H1 & H2 & E) | (H1 & H2 & m & ts & Hm & Hts & E)]]];
    rewrite <- ?Ev in *; rewrite ?Hro in *.
  - pose proof (validated_length_le readings). lia.
  - lia.
  - congruence.
  - eexists. split; [exact E |]. simpl.
    split; [congruence |]. split; [lia | reflexivity].
Qed.

Lemma unanimous_readings_reach_consensus_example :
  exists res,
    aggregate_readings Samples.full_confidence default_aggregator
      [Samples.signed 23.1 "node_1"; Samples.signed 23.1 "node_2";
       Samples.signed 23.1 "node_3"; Samples.signed 23.1 "node_4"]
    = inr res /\
    res_value res = 23.1%float /\
    res_outliers_removed res = 0%Z /\
    res_nodes_participated res
    = Py.len (validate_signatures
                [Samples.signed 23.1 "node_1"; Samples.signed 23.1 "node_2";
                 Samples.signed 23.1 "node_3"; Samples.signed 23.1 "node_4"]).
Proof.
  apply (unanimous_readings_reach_consensus Samples.full_confidence default_aggregator
           [Samples.signed 23.1 "node_1"; Samples.signed 23.1 "node_2";
            Samples.signed 23.1 "node_3"; Samples.signed 23.1 "node_4"]
           23.1%float).
  - vm_compute; reflexivity.
  - vm_compute; reflexivity.
  - vm_compute; discriminate.
  - vm_compute; discriminate.
  - vm_compute; reflexivity.
  - vm_compute; reflexivity.
  - intros r Hr _. simpl in Hr.
    destruct Hr as [<- | [<- | [<- | [<- | []]]]]; reflexivity.
Defined.

(** Outside these conditions unanimity is not enough: four readings of
    [inf] differ from their median by not-a-number and reach no
    consensus, and the halved sum of two readings of 1e308 is [inf]. *)
Lemma unanimous_extreme_readings :
  aggregate_readings Samples.full_confidence default_aggregator
    [Samples.signed infinity "node_1"; Samples.signed infinity "node_2";
     Samples.signed infinity "node_3"; Samples.signed infinity "node_4"]
  = inl ConsensusError_no_consensus /\
  aggregate_readings Samples.full_confidence default_aggregator
    [Samples.signed 1e308 "node_1"; Samples.signed 1e308 "node_2";
     Samples.signed 1e308 "node_3"; Samples.signed 1e308 "node_4"]
  = inr {| res_value := infinity; res_timestamp := 1700000000; res_confidence := 1;
           res_nodes_participated := 4; res_outliers_removed := 0 |}.
Proof. split; vm_compute; reflexivity. Qed.

End AggregatorExtras.

(** ** The node's consensus window *)

Module NodeExtras.

Import Aggregator Binary64Facts OutlierFacts AggregatorFacts Node NodeWindow.

(** X8.  Each call of [process_consensus] counts exactly once, as a
    successful submission or as a consensus failure, and sends at most
    one submission to the ledger: none when aggregation raises, and
    otherwise the aggregated value and timestamp under the sensor's
    name.  It counts as successful exactly when aggregation returns a
    result and the ledger accepts it. *)
Theorem process_consensus_counts_once {sorting : PyFloat.Sorting}
    (calculate_confidence : list float -> float) (submit : Submission -> option string)
    (aggregator : DataAggregator) (metrics : NodeMetrics) (sensor_name : string)
    (readings : list SensorReading) :
  let outcome := aggregate_readings calculate_confidence aggregator readings in
  let after := process_consensus calculate_confidence submit aggregator metrics
                 sensor_name readings in
  (successful_submissions (fst after) + consensus_failures (fst after)
   = successful_submissions metrics + consensus_failures metrics + 1)%Z /\
  (forall e, outcome = inl e -> snd after = []) /\
  (forall res, outcome = inr res ->
     snd after = [ {| sub_sensor_id := sensor_name; sub_value := res_value res;
                      sub_timestamp := res_timestamp res |} ]) /\
  ((successful_submissions (fst after) = successful_submissions metrics + 1)%Z <->
   exists res tx_hash,
     outcome = inr res /\
     submit {| sub_sensor_id := sensor_name; sub_value := res_value res;
               sub_timestamp := res_timestamp res |} = Some tx_hash).
Proof.
  cbv zeta. unfold process_consensus.
  destruct (aggregate_readings calculate_confidence aggregator readings) as [e | res].
  - simpl. split; [lia |]. split; [reflexivity |]. split; [discriminate |].
    split; [lia | intros (res & tx & H & _); discriminate].
  - destruct (submit _) as [tx |] eqn:Es; simpl.
    + split; [lia |]. split; [discriminate |].
      split; [intros r E; now injection E as <- |].
      split; [intros _; now exists res, tx | reflexivity].
    + split; [lia |]. split; [discriminate |].
      split; [intros r E; now injection E as <- |].
      split; [lia |]. intros (r & tx & E & Hs). injection E as <-. congruence.
Qed.

Lemma collected_readings_rejected (peers : list PeerAnswer) :
  validate_signatures (collect_peer_readings peers) = [].
Proof. induction peers as [| p peers IH]; [reflexivity | exact IH]. Qed.

(** X9.  The readings built by [collect_peer_readings] carry a
    placeholder signature that [validate_signatures] rejects, so a
    window made of them and of the node's own reading has at most one
    valid reading: with [min_nodes] at least 2 the consensus step never
    submits to the ledger and never counts a successful submission. *)
Theorem stub_peers_never_submit {sorting : PyFloat.Sorting}
    (calculate_confidence : list float -> float) (submit : Submission -> option string)
    (aggregator : DataAggregator) (metrics : NodeMetrics) (sensor_name : string)
    (peers : list PeerAnswer) (our_reading : SensorReading) :
  (2 <= min_nodes aggregator)%Z ->
  let after := consensus_step calculate_confidence submit aggregator metrics
                 sensor_name peers our_reading in
  (Py.len (validate_signatures (collect_peer_readings peers ++ [our_reading])) <= 1)%Z /\
  snd after = [] /\
  successful_submissions (fst after) = successful_submissions metrics.
Proof.
  intros Hmin. cbv zeta.
  assert (Hv : (Py.len (validate_signatures (collect_peer_readings peers ++ [our_reading]))
                <= 1)%Z).
  { unfold validate_signatures. rewrite List.filter_app.
    fold (validate_signatures (collect_peer_readings peers)).
    rewrite collected_readings_rejected. simpl.
    destruct (signature_ok our_reading); unfold Py.len; simpl; lia. }
  split; [exact Hv |].
  unfold consensus_step.
  destruct (Z.leb_spec (min_nodes aggregator)
              (Py.len (collect_peer_readings peers ++ [our_reading]))) as [Hg | Hg];
    [| now split].
  unfold process_consensus.
  pose proof (filtered_length_le (collect_peer_readings peers ++ [our_reading])) as Hf.
  destruct (aggregate_readings_cases calculate_confidence aggregator
              (collect_peer_readings peers ++ [our_reading]))
    as [[H1 E] | [(H1 & H2 & E) | [(H1 & H2 & E) | (H1 & H2 & _)]]];
    try (rewrite E; now split); lia.
Qed.

Lemma stub_peers_never_submit_example :
  let peers := [ {| peer_url := "http://10.0.0.2:8001"; simulated_value := 23;
                    answered_at := 1700000000 |};
                 {| peer_url := "http://10.0.0.3:8002"; simulated_value := 23.1;
                    answered_at := 1700000000 |} ] in
  let after := consensus_step Samples.full_confidence Samples.accepting_ledger
                 default_aggregator Samples.fresh_metrics "temperature" peers
                 (Samples.signed 23 "node_1") in
  map node_id (collect_peer_readings peers) = ["peer_8001"; "peer_8002"]%string /\
  (Py.len (validate_signatures (collect_peer_readings peers ++ [Samples.signed 23 "node_1"]))
   <= 1)%Z /\
  snd after = [] /\
  successful_submissions (fst after) = successful_submissions Samples.fresh_metrics.
Proof.
  cbv zeta. split; [vm_compute; reflexivity |].
  apply (stub_peers_never_submit Samples.full_confidence Samples.accepting_ledger
           default_aggregator Samples.fresh_metrics "temperature").
  vm_compute; discriminate.
Defined.

End NodeExtras.

(** ** Queries and maintenance of the reputation system *)

Module ReputationExtras.

Import Reputation ReputationFacts ReputationQueries.

(** X10.  Reading the reputation of a node returns the stored score, or
    the default for a node that has none and stores it; afterwards the
    node has that score, a second reading returns the same score and
    changes nothing, and the other nodes and the event log are
    untouched. *)
Theorem get_reputation_stores_default (self : ReputationSystem) (node_id : string) :
  let r := fst (get_reputation self node_id) in
  let self1 := snd (get_reputation self node_id) in
  node_reputations self1 !! node_id = Some r /\
  (node_reputations self !! node_id = None -> r = default_reputation self) /\
  (forall stored, node_reputations self !! node_id = Some stored ->
     r = stored /\ self1 = self) /\
  get_reputation self1 node_id = (r, self1) /\
  (forall other, other <> node_id ->
     node_reputations self1 !! other = node_reputations self !! other) /\
  reputation_events self1 = reputation_events self.
Proof.
  cbv zeta. unfold get_reputation.
  destruct (node_reputations self !! node_id) as [stored |] eqn:E; simpl.
  - rewrite E. repeat split; congruence.
  - rewrite lookup_insert_eq. repeat split; try congruence.
    intros other Hne. now rewrite lookup_insert_ne.
Qed.

Ltac split_tiers :=
  repeat match goal with
         | |- context [Qle_bool ?a ?b] =>
             let E := fresh "E" in
             destruct (Qle_bool a b) eqn:E;
             [apply Qle_bool_iff in E | apply PyFacts.Qle_bool_false in E]
         end.

Lemma weight_of_monotone (r1 r2 : Q) : r1 <= r2 -> weight_of r1 <= weight_of r2.
Proof. intros H. unfold weight_of. split_tiers; lra. Qed.

Lemma weight_of_bounds (r : Q) : 1 # 10 <= weight_of r /\ weight_of r <= 1.
Proof. unfold weight_of. split_tiers; split; lra. Qed.

(** X11.  The consensus weight of a node never falls below 0.1 and never
    exceeds 1, it does not decrease when the reputation increases, and a
    node seen for the first time by a fresh system weighs 1.  Computing
    it has the effect of reading the reputation. *)
Theorem consensus_weight_tiers (self : ReputationSystem) (node_id : string) :
  let w := fst (calculate_consensus_weight self node_id) in
  1 # 10 <= w /\ w <= 1 /\
  w = weight_of (fst (get_reputation self node_id)) /\
  snd (calculate_consensus_weight self node_id) = snd (get_reputation self node_id) /\
  (forall r1 r2, r1 <= r2 -> weight_of r1 <= weight_of r2) /\
  (forall r, 8 # 10 <= r -> weight_of r = 1) /\
  (forall r, r < 2 # 10 -> weight_of r = 1 # 10) /\
  fst (calculate_consensus_weight init node_id) = 1.
Proof.
  cbv zeta. unfold calculate_consensus_weight.
  destruct (get_reputation self node_id) as [r self1] eqn:E. simpl.
  destruct (weight_of_bounds r) as [Hlo Hhi].
  split; [exact Hlo |]. split; [exact Hhi |]. split; [reflexivity |].
  split; [reflexivity |]. split; [exact weight_of_monotone |].
  split; [| split; [| reflexivity]].
  - intros r0 H. unfold weight_of. apply Qle_bool_iff in H. now rewrite H.
  - intros r0 H. unfold weight_of. split_tiers; try reflexivity; lra.
Qed.

Lemma get_reputation_keeps_events (self : ReputationSystem) (node_id : string) :
  reputation_events (snd (get_reputation self node_id)) = reputation_events self.
Proof.
  unfold get_reputation. now destruct (node_reputations self !! node_id).
Qed.

(** X12.  The event log only grows, and only through updates with a
    recognised event type: such an update appends one event with the
    node, the type, the impact of the weight table and the time of the
    call, while reads, decay passes and updates with an unknown type
    leave the log as it is. *)
Theorem event_log_is_append_only (calls : list call) (c : call) :
  let before := reputation_events (run calls) in
  let after := reputation_events (step (run calls) c) in
  match c with
  | CallUpdate node_id event_type details now =>
      match initial_weights !! event_type with
      | Some impact =>
          after = before ++ [ {| ev_node_id := node_id; ev_event_type := event_type;
                                 ev_impact := impact; ev_timestamp := now;
                                 ev_details := default [] details |} ]
      | None => after = before
      end
  | CallGet _ | CallDecay => after = before
  end.
Proof.
  cbv zeta. pose proof (run_well_formed calls) as Hwf.
  destruct c as [n | n e d t |]; simpl.
  - apply get_reputation_keeps_events.
  - unfold update_reputation. rewrite (wf_weights _ Hwf).
    destruct (initial_weights !! e) as [impact |]; [| reflexivity].
    pose proof (get_reputation_keeps_events (run calls) n) as He.
    destruct (get_reputation (run calls) n) as [current self1]. simpl in *.
    now rewrite He.
  - reflexivity.
Qed.

(** X13.  [cleanup_old_events] keeps, in order, exactly the events that
    are not older than the retention period, does not touch the scores,
    and has nothing left to remove when run again at the same time. *)
Theorem cleanup_old_events_keeps_recent (self : ReputationSystem) (days_to_keep now : Z) :
  let cleaned := cleanup_old_events self days_to_keep now in
  let cutoff_time := (now - days_to_keep * 24 * 3600)%Z in
  node_reputations cleaned = node_reputations self /\
  sublist (reputation_events cleaned) (reputation_events self) /\
  (forall e, In e (reputation_events cleaned) <->
             In e (reputation_events self) /\ (cutoff_time <= ev_timestamp e)%Z) /\
  cleanup_old_events cleaned days_to_keep now = cleaned /\
  (well_formed self -> well_formed cleaned).
Proof.
  cbv zeta. unfold cleanup_old_events. simpl.
  split; [reflexivity |]. split; [apply OutlierFacts.filter_sublist |]. split; [| split].
  - intros e. rewrite List.filter_In, Z.leb_le. reflexivity.
  - unfold set_reputation_events. simpl. now rewrite OutlierFacts.filter_twice.
  - intros [Hw Hmin Hmax Hd Hr Hs]. now constructor.
Qed.

Lemma insert_newest_first_perm (e : ReputationEvent) (l : list ReputationEvent) :
  Permutation (insert_newest_first e l) (e :: l).
Proof.
  induction l as [| e' l IH]; simpl; [reflexivity |].
  destruct (ev_timestamp e' <=? ev_timestamp e)%Z; [reflexivity |].
  rewrite IH. apply perm_swap.
Qed.

Lemma insert_newest_first_sorted (e : ReputationEvent) (l : list ReputationEvent) :
  StronglySorted newer_or_equal l -> StronglySorted newer_or_equal (insert_newest_first e l).
Proof.
  induction 1 as [| e' l Hs IH He']; simpl.
  - constructor; constructor.
  - destruct (Z.leb_spec (ev_timestamp e') (ev_timestamp e)) as [Hle | Hgt].
    + constructor; [now constructor |].
      constructor; [exact Hle |].
      rewrite List.Forall_forall in He' |- *. intros x Hx.
      specialize (He' x Hx). unfold newer_or_equal in *. lia.
    + constructor; [exact IH |].
      rewrite List.Forall_forall in He' |- *. intros x Hx.
      apply (Permutation_in _ (insert_newest_first_perm e l)) in Hx.
      destruct Hx as [<- | Hx]; [unfold newer_or_equal; lia | now apply He'].
Qed.

(** X14.  The history of a node lists, newest first, exactly the logged
    events of that node that are not older than the requested number of
    days: nothing is added, dropped or duplicated. *)
Theorem reputation_history_newest_first (self : ReputationSystem) (node_id : string)
    (days now : Z) :
  let history := get_reputation_history self node_id days now in
  let cutoff_time := (now - days * 24 * 3600)%Z in
  StronglySorted newer_or_equal history /\
  Permutation history
    (List.filter (fun event => String.eqb (ev_node_id event) node_id
                               && (cutoff_time <=? ev_timestamp event)%Z)
       (reputation_events self)) /\
  (forall e, In e history <->
             In e (reputation_events self) /\ ev_node_id e = node_id /\
             (cutoff_time <= ev_timestamp e)%Z).
Proof.
  cbv zeta. unfold get_reputation_history.
  set (recent := List.filter _ (reputation_events self)).
  assert (Hp : Permutation (fold_right insert_newest_first [] recent) recent).
  { induction recent as [| e l IH]; simpl; [reflexivity |].
    rewrite insert_newest_first_perm. now constructor. }
  split; [| split; [exact Hp |]].
  - induction recent as [| e l IH]; simpl; [constructor |].
    apply insert_newest_first_sorted, IH.
    clear - l. induction l as [| e' l IH]; simpl; [reflexivity |].
    rewrite insert_newest_first_perm. now constructor.
  - intros e. split.
    + intros H. apply (Permutation_in _ Hp) in H. unfold recent in H.
      apply List.filter_In in H. destruct H as [Hin Hb].
      apply andb_true_iff in Hb. destruct Hb as [Hn Ht].
      apply String.eqb_eq in Hn. apply Z.leb_le in Ht. auto.
    + intros (Hin & Hn & Ht). apply (Permutation_in _ (Permutation_sym Hp)).
      unfold recent. apply List.filter_In. split; [exact Hin |].
      apply andb_true_iff. split; [now apply String.eqb_eq | now apply Z.leb_le].
Qed.

Lemma bucket_of (r : Q) :
  (Z.b2z (Qle_bool (9 # 10) r) + Z.b2z (in_range (7 # 10) (9 # 10) r)
   + Z.b2z (in_range (5 # 10) (7 # 10) r) + Z.b2z (in_range (3 # 10) (5 # 10) r)
   + Z.b2z (Py.Qlt_bool r (3 # 10)) = 1)%Z.
Proof.
  unfold in_range, Py.Qlt_bool. split_tiers; simpl; try reflexivity; lra.
Qed.

Lemma len_filter_cons {A : Type} (f : A -> bool) (x : A) (l : list A) :
  Py.len (List.filter f (x :: l)) = (Z.b2z (f x) + Py.len (List.filter f l))%Z.
Proof. unfold Py.len. simpl. destruct (f x); simpl; lia. Qed.

Lemma distribution_total (reputations : list Q) :
  let d := reputation_distribution reputations in
  (excellent d + good d + average d + poor d + very_poor d = Py.len reputations)%Z.
Proof.
  cbv zeta. unfold reputation_distribution. simpl.
  induction reputations as [| r l IH]; [reflexivity |].
  rewrite !len_filter_cons. pose proof (bucket_of r).
  unfold Py.len in *. simpl List.length. lia.
Qed.

(** X15.  In the reputation report every stored score falls in exactly
    one of the five bands: the five counts add up to the number of
    nodes, which is the number of stored scores; a system without scores
    gives the message instead of a report. *)
Theorem report_bands_partition (self : ReputationSystem) :
  match report_counts self with
  | None => node_reputations self = ∅
  | Some (total_nodes, total_events, d) =>
      total_nodes = Z.of_nat (size (node_reputations self)) /\
      (0 < total_nodes)%Z /\
      total_events = Py.len (reputation_events self) /\
      (excellent d + good d + average d + poor d + very_poor d = total_nodes)%Z /\
      (0 <= excellent d)%Z /\ (0 <= good d)%Z /\ (0 <= average d)%Z /\
      (0 <= poor d)%Z /\ (0 <= very_poor d)%Z
  end.
Proof.
  unfold report_counts.
  destruct (map snd (map_to_list (node_reputations self))) as [| r l] eqn:E.
  - apply map_to_list_empty_iff. destruct (map_to_list (node_reputations self));
      [reflexivity | discriminate].
  - rewrite <- E. pose proof (distribution_total (map snd (map_to_list (node_reputations self)))) as Hd.
    cbv zeta in Hd.
    assert (Hl : Py.len (map snd (map_to_list (node_reputations self)))
                 = Z.of_nat (size (node_reputations self))).
    { unfold Py.len. now rewrite length_map, length_map_to_list. }
    split; [exact Hl |]. split; [rewrite E; unfold Py.len; simpl; lia |].
    split; [reflexivity |]. split; [exact Hd |].
    unfold reputation_distribution, Py.len; simpl. repeat split; lia.
Qed.

End ReputationExtras.

(** ** Stakes and repeated slashing *)

Module StakesExtras.

Import Staking Stakes.

(** X16.  The simulated stake of any address lies between 1000 and 5999
    tokens (of 10^18 units), whatever the digest of the address is; a
    manager whose minimum stake is at most 1000 tokens, as by default,
    therefore always finds the stake sufficient. *)
Theorem simulated_stake_is_sufficient (address_hash : string -> Z)
    (self : StakingManager) (w : World) (account_address : string) :
  (forall a, node_stake w a = get_node_stake address_hash a) ->
  (min_stake self <= 1000 * 10 ^ 18)%Z ->
  (1000 * 10 ^ 18 <= node_stake w account_address <= 5999 * 10 ^ 18)%Z /\
  check_stake self w account_address = true.
Proof.
  intros Hw Hmin.
  assert (Hs : (1000 * 10 ^ 18 <= node_stake w account_address <= 5999 * 10 ^ 18)%Z).
  { rewrite Hw. unfold get_node_stake.
    pose proof (Z.mod_pos_bound (address_hash account_address) 5000 ltac:(lia)). lia. }
  split; [exact Hs |]. unfold check_stake. apply Z.leb_le. lia.
Qed.

Lemma simulated_stake_is_sufficient_example :
  let w := {| votes_for := 5; votes_against := 0;
              node_stake := get_node_stake (fun _ => 3735928559%Z);
              send_transaction := None; now := 1700000000 |} in
  (1000 * 10 ^ 18 <= node_stake w "0xaccount" <= 5999 * 10 ^ 18)%Z /\
  check_stake Samples.fresh_manager w "0xaccount" = true.
Proof.
  cbv zeta.
  apply (simulated_stake_is_sufficient (fun _ => 3735928559%Z) Samples.fresh_manager
           {| votes_for := 5; votes_against := 0;
              node_stake := get_node_stake (fun _ => 3735928559%Z);
              send_transaction := None; now := 1700000000 |} "0xaccount").
  - intros a. reflexivity.
  - vm_compute. discriminate.
Defined.

(** X17.  A withdrawal succeeds only if the stake that remains is at
    least the minimum stake and the transaction is sent; it then appends
    one withdraw entry to the stake history.  A refused or failed
    withdrawal leaves the history unchanged, and a withdrawal that would
    leave less than the minimum is refused before any transaction. *)
Theorem withdraw_keeps_minimum_stake (self : StakingManager)
    (stake_history : list StakeEvent) (w : World) (account_address : string) (amount : Z) :
  let outcome := withdraw_stake self stake_history w account_address amount in
  ((node_stake w account_address - amount < min_stake self)%Z ->
   outcome = (inl ValueError_residual_stake, stake_history)) /\
  (forall e, fst outcome = inl e -> snd outcome = stake_history) /\
  (forall tx_hash, fst outcome = inr tx_hash ->
     (min_stake self <= node_stake w account_address - amount)%Z /\
     send_transaction w = Some tx_hash /\
     snd outcome = stake_history ++ [ {| sk_action := "withdraw"; sk_amount := amount;
                                         sk_timestamp := now w; sk_tx_hash := tx_hash |} ]).
Proof.
  cbv zeta. unfold withdraw_stake.
  destruct (Z.ltb_spec (node_stake w account_address - amount) (min_stake self)) as [Hlt | Hge].
  - split; [reflexivity |]. split; [reflexivity | discriminate].
  - split; [lia |].
    destruct (send_transaction w) as [tx |]; simpl.
    + split; [discriminate |]. intros t E. injection E as <-. now repeat split.
    + split; [reflexivity | discriminate].
Qed.

Lemma clamp_low (lo hi x : Q) : lo <= hi -> x <= lo -> Py.max lo (Py.min hi x) == lo.
Proof.
  intros Hlh Hx. unfold Py.max.
  destruct (Py.Qlt_bool lo (Py.min hi x)) eqn:E; [| reflexivity].
  apply PyFacts.Qlt_bool_iff in E. unfold Py.min in *.
  destruct (Py.Qlt_bool x hi) eqn:E2; [lra |].
  unfold Py.Qlt_bool in E2. apply negb_false_iff, Qle_bool_iff in E2. lra.
Qed.




End StakesExtras.

(** ** Gauges and counters *)

Module GaugesExtras.

Import Gauges.

Lemma counter_increment (self : Collector) (name k : string) (value : Z) :
  counter (increment_counter self name value None) k
  = if decide (name = k) then (counter self k + value)%Z else counter self k.
Proof.
  unfold counter, increment_counter. simpl.
  destruct (decide (name = k)) as [-> | Hne].
  - now rewrite lookup_insert_eq.
  - now rewrite lookup_insert_ne.
Qed.

Lemma counter_record_metric (self : Collector) (name : string) (value : Q)
    (labels : option (list (string * string))) (now now_cleanup : Z) (k : string) :
  counter (record_metric self name value labels now now_cleanup) k = counter self k.
Proof. reflexivity. Qed.

Lemma run_snoc (retention_hours : Z) (writes : list write) (w : write) :
  run retention_hours (writes ++ [w]) = apply_write (run retention_hours writes) w.
Proof. unfold run. now rewrite fold_left_app. Qed.

Lemma consensus_flags_snoc (writes : list write) (w : write) :
  consensus_flags (writes ++ [w])
  = consensus_flags writes
    ++ match w with
       | WriteConsensus success _ _ _ => [success]
       | WriteMetric _ _ _ _ _ => []
       end.
Proof.
  unfold consensus_flags. rewrite flat_map_app. simpl. now rewrite app_nil_r.
Qed.

(** X19.  After any sequence of gauge writes and consensus events on a
    fresh collector, the counter of consensus attempts is the number of
    consensus events, the counter of successes the number of successful
    ones, and attempts are always successes plus failures. *)
Theorem consensus_counters_balance (retention_hours : Z) (writes : list write) :
  let self := run retention_hours writes in
  let flags := consensus_flags writes in
  counter self "consensus_attempts_total" = Py.len flags /\
  counter self "consensus_success_total" = Py.len (List.filter (fun b => b) flags) /\
  counter self "consensus_failures_total" = Py.len (List.filter negb flags) /\
  (counter self "consensus_attempts_total"
   = counter self "consensus_success_total" + counter self "consensus_failures_total")%Z.
Proof.
  cbv zeta.
  assert (H3 :
    counter (run retention_hours writes) "consensus_attempts_total"
      = Py.len (consensus_flags writes) /\
    counter (run retention_hours writes) "consensus_success_total"
      = Py.len (List.filter (fun b => b) (consensus_flags writes)) /\
    counter (run retention_hours writes) "consensus_failures_total"
      = Py.len (List.filter negb (consensus_flags writes))).
  { induction writes as [| w writes IH] using rev_ind; [now repeat split |].
    destruct IH as (IH1 & IH2 & IH3).
    rewrite run_snoc, consensus_flags_snoc.
    destruct w as [n v l t c | success nodes conf clock]; simpl.
    - rewrite !counter_record_metric, app_nil_r. now repeat split.
    - unfold record_consensus_event. rewrite !List.filter_app.
      unfold Py.len in *. rewrite !length_app.
      destruct success; simpl;
        rewrite ?counter_record_metric, !counter_increment; simpl;
        repeat split; lia. }
  destruct H3 as (H1 & H2 & H3). repeat split; try assumption.
  rewrite H1, H2, H3. clear.
  induction (consensus_flags writes) as [| b l IH]; [reflexivity |].
  unfold Py.len in *. destruct b; simpl; lia.
Qed.

Lemma deque_append_ends (points : list MetricPoint) (point : MetricPoint) :
  exists front, deque_append points point = front ++ [point].
Proof.
  unfold deque_append.
  destruct (Nat.ltb_spec maxlen (List.length (points ++ [point]))) as [H | H];
    [| now exists points].
  unfold Py.last_n. rewrite List.length_app. simpl.
  rewrite List.skipn_app.
  replace (List.length points + 1 - maxlen - List.length points)%nat with 0%nat
    by (unfold maxlen; lia).
  simpl. now eexists.
Qed.

Lemma deque_append_bounded (points : list MetricPoint) (point : MetricPoint) :
  (List.length (deque_append points point) <= maxlen)%nat.
Proof.
  unfold deque_append.
  destruct (Nat.ltb_spec maxlen (List.length (points ++ [point]))) as [H | H]; [| exact H].
  rewrite MetricsFacts.last_n_length. lia.
Qed.

Lemma pop_old_snoc (cutoff_time : Z) (points : list MetricPoint) (point : MetricPoint) :
  (cutoff_time <= mp_timestamp point)%Z ->
  pop_old cutoff_time (points ++ [point]) = pop_old cutoff_time points ++ [point].
Proof.
  intros H. induction points as [| p ps IH]; simpl.
  - destruct (Z.ltb_spec (mp_timestamp point) cutoff_time); [lia | reflexivity].
  - destruct (mp_timestamp p <? cutoff_time)%Z; [exact IH | reflexivity].
Qed.

Lemma pop_old_length (cutoff_time : Z) (points : list MetricPoint) :
  (List.length (pop_old cutoff_time points) <= List.length points)%nat.
Proof.
  induction points as [| p ps IH]; simpl; [lia |].
  destruct (mp_timestamp p <? cutoff_time)%Z; simpl; lia.
Qed.

Lemma last_of_snoc (front : list MetricPoint) (point : MetricPoint) :
  List.last (map Some (front ++ [point])) None = Some point.
Proof. rewrite map_app. simpl. apply List.last_last. Qed.

(** X20.  A gauge that was just recorded is the latest value of its
    metric: the cleanup that runs on every write never removes the point
    that was just written, provided the retention period has not already
    elapsed between the two clock readings of the call.  The counters
    are not touched. *)
Theorem recorded_metric_is_latest (self : Collector) (name : string) (value : Q)
    (labels : option (list (string * string))) (now now_cleanup : Z) :
  (now_cleanup - retention_seconds self <= now)%Z ->
  let self' := record_metric self name value labels now now_cleanup in
  get_latest_metric_value self' name = value /\
  counters self' = counters self /\
  retention_seconds self' = retention_seconds self.
Proof.
  intros Hret. cbv zeta. split; [| now split].
  unfold get_latest_metric_value, record_metric, cleanup_old_metrics. simpl.
  rewrite lookup_fmap, lookup_insert_eq. simpl.
  destruct (deque_append_ends (default [] (metrics self !! name))
              {| mp_timestamp := now; mp_value := value; mp_labels := default [] labels |})
    as [front ->].
  rewrite pop_old_snoc by (simpl; lia).
  now rewrite last_of_snoc.
Qed.

Lemma recorded_metric_is_latest_example :
  let self' := record_metric (init 24) "system_cpu_usage" (125 # 10) None
                 1700000000 1700000001 in
  get_latest_metric_value self' "system_cpu_usage" = 125 # 10 /\
  counters self' = counters (init 24) /\
  retention_seconds self' = retention_seconds (init 24).
Proof.
  cbv zeta.
  apply (recorded_metric_is_latest (init 24) "system_cpu_usage" (125 # 10) None
           1700000000 1700000001).
  vm_compute. discriminate.
Defined.

Lemma record_metric_bounded (self : Collector) (name : string) (value : Q)
    (labels : option (list (string * string))) (now now_cleanup : Z) :
  map_Forall (fun _ points => (List.length points <= maxlen)%nat) (metrics self) ->
  map_Forall (fun _ points => (List.length points <= maxlen)%nat)
    (metrics (record_metric self name value labels now now_cleanup)).
Proof.
  intros H k points Hk. unfold record_metric, cleanup_old_metrics in Hk. simpl in Hk.
  rewrite lookup_fmap in Hk.
  destruct (decide (name = k)) as [-> | Hne].
  - rewrite lookup_insert_eq in Hk. simpl in Hk. injection Hk as <-.
    etransitivity; [apply pop_old_length | apply deque_append_bounded].
  - rewrite lookup_insert_ne in Hk by exact Hne.
    destruct (metrics self !! k) as [pts |] eqn:E; [| discriminate].
    simpl in Hk. injection Hk as <-.
    etransitivity; [apply pop_old_length | exact (H k pts E)].
Qed.

(** X21.  No metric ever holds more than 10000 points, whatever is
    written to a fresh collector. *)
Theorem metric_deques_are_bounded (retention_hours : Z) (writes : list write) :
  map_Forall (fun _ points => (List.length points <= 10 * 1000)%nat)
    (metrics (run retention_hours writes)).
Proof.
  induction writes as [| w writes IH] using rev_ind; [apply map_Forall_empty |].
  rewrite run_snoc.
  destruct w as [n v l t c | success nodes conf clock]; simpl.
  - now apply record_metric_bounded.
  - unfold record_consensus_event. destruct success; [| exact IH].
    apply record_metric_bounded, record_metric_bounded. exact IH.
Qed.

End GaugesExtras.

(** ** Percentiles *)

Module PercentileExtras.

Import Metrics MetricsFacts.

Lemma int_is_floor (x : Q) : 0 <= x -> Py.int x = Qfloor x.
Proof.
  intros H. destruct x as [n d]. unfold Py.int. simpl.
  apply Z.quot_div_nonneg; [| lia]. unfold Qle in H. simpl in H. lia.
Qed.

Lemma int_monotone (x y : Q) : 0 <= x -> x <= y -> (Py.int x <= Py.int y)%Z.
Proof.
  intros Hx Hxy. rewrite !int_is_floor by lra. now apply Qfloor_resp_le.
Qed.

Lemma scaled_monotone (p p' : Q) (n : Z) :
  (0 <= n)%Z -> p <= p' -> p / 100 * inject_Z n <= p' / 100 * inject_Z n.
Proof.
  intros Hn Hp. apply Qmult_le_compat_r.
  - unfold Qdiv. change (/ 100) with (1 # 100). lra.
  - unfold Qle. simpl. lia.
Qed.

Lemma scaled_nonneg (p : Q) (n : Z) : (0 <= n)%Z -> 0 <= p -> 0 <= p / 100 * inject_Z n.
Proof.
  intros Hn Hp. apply Qmult_le_0_compat.
  - unfold Qdiv. change (/ 100) with (1 # 100). lra.
  - unfold Qle. simpl. lia.
Qed.

(** The sample a non-negative percentile selects. *)
Lemma get_percentile_selects (self : MetricsCollector) (key : string) (stored : list Q)
    (p : Q) :
  histograms self !! key = Some stored -> stored <> [] -> 0 <= p ->
  let index := Z.min (Py.int (p / 100 * inject_Z (Py.len stored))) (Py.len stored - 1) in
  (0 <= index < Py.len stored)%Z /\
  exists v, get_percentile self key p = Some v /\
            nth_error (Py.sorted stored) (Z.to_nat index) = Some v.
Proof.
  intros Hs Hne Hp. cbv zeta.
  pose proof (SortedFacts.sorted_length stored) as Hsl.
  assert (Hn : (0 < Py.len stored)%Z).
  { destruct stored; [congruence | unfold Py.len; simpl; lia]. }
  pose proof (int_nonneg _ (scaled_nonneg p (Py.len stored) ltac:(lia) Hp)) as Hi.
  split; [lia |].
  unfold get_percentile. rewrite Hs.
  assert (Hlv : Py.len (Py.sorted stored) = Py.len stored)
    by (unfold Py.len; now rewrite Hsl).
  destruct (Py.sorted stored) as [| y ys] eqn:Ey.
  { unfold Py.len in *. simpl in Hlv. lia. }
  rewrite Hlv. unfold Py.index.
  destruct (Z.leb_spec 0 (Z.min (Py.int (p / 100 * inject_Z (Py.len stored)))
                            (Py.len stored - 1))) as [_ | Hneg]; [| lia].
  destruct (nth_error (y :: ys) _) as [v |] eqn:Ev; [now exists v |].
  apply nth_error_None in Ev. unfold Py.len in *. lia.
Qed.

(** X22.  Percentiles of a histogram are ordered like their arguments:
    for [0 <= p <= p'] the percentile [p] is at most the percentile
    [p'].  The percentile 0 is the smallest retained sample, and every
    percentile from 100 on is the largest. *)
Theorem percentiles_are_monotone (self : MetricsCollector) (key : string)
    (stored : list Q) (p p' : Q) :
  histograms self !! key = Some stored -> stored <> [] ->
  0 <= p -> p <= p' ->
  exists v v',
    get_percentile self key p = Some v /\
    get_percentile self key p' = Some v' /\
    v <= v' /\
    (p == 0 -> forall x, In x stored -> v <= x) /\
    (100 <= p' -> forall x, In x stored -> x <= v').
Proof.
  intros Hs Hne Hp Hpp.
  destruct (get_percentile_selects self key stored p Hs Hne Hp) as (Hi & v & Hv & Hnv).
  destruct (get_percentile_selects self key stored p' Hs Hne ltac:(lra))
    as (Hi' & v' & Hv' & Hnv').
  cbv zeta in *.
  pose proof (SortedFacts.sorted_ascending stored) as Hasc.
  pose proof (SortedFacts.sorted_length stored) as Hsl.
  assert (Hn : (0 <= Py.len stored)%Z) by (unfold Py.len; lia).
  pose proof (int_monotone _ _ (scaled_nonneg p _ Hn Hp)
                (scaled_monotone p p' _ Hn Hpp)) as Hmono.
  exists v, v'. split; [exact Hv |]. split; [exact Hv' |]. split; [| split].
  - eapply (SortedFacts.ascending_nth _ Hasc); [| exact Hnv | exact Hnv']. lia.
  - intros Hz x Hx.
    apply (Permutation_in _ (Permutation_sym (SortedFacts.sorted_perm stored))) in Hx.
    apply List.In_nth_error in Hx. destruct Hx as [j Hj].
    assert (H0 : Py.int (p / 100 * inject_Z (Py.len stored)) = 0%Z).
    { rewrite int_is_floor by (apply scaled_nonneg; assumption).
      assert (E : p / 100 * inject_Z (Py.len stored) == 0) by (rewrite Hz; field).
      rewrite E. reflexivity. }
    rewrite H0 in Hnv.
    eapply (SortedFacts.ascending_nth _ Hasc); [| exact Hnv | exact Hj]. lia.
  - intros H100 x Hx.
    apply (Permutation_in _ (Permutation_sym (SortedFacts.sorted_perm stored))) in Hx.
    apply List.In_nth_error in Hx. destruct Hx as [j Hj].
    assert (Hjn : (j < List.length (Py.sorted stored))%nat).
    { apply nth_error_Some. congruence. }
    assert (Hbig : (Py.len stored <= Py.int (p' / 100 * inject_Z (Py.len stored)))%Z).
    { rewrite int_is_floor by (apply scaled_nonneg; [assumption | lra]).
      rewrite <- (Qfloor_Z (Py.len stored)) at 1. apply Qfloor_resp_le.
      assert (E : inject_Z (Py.len stored) == 100 / 100 * inject_Z (Py.len stored))
        by field.
      rewrite E at 1. now apply scaled_monotone. }
    eapply (SortedFacts.ascending_nth _ Hasc); [| exact Hj | exact Hnv'].
    unfold Py.len in *. lia.
Qed.

Lemma percentiles_are_monotone_example :
  exists v v',
    get_percentile (record_all Samples.two_latencies) "blockchain_latency_ms" 0 = Some v /\
    get_percentile (record_all Samples.two_latencies) "blockchain_latency_ms" 99 = Some v' /\
    v <= v' /\
    (0 == 0 -> forall x, In x [1; 2] -> v <= x) /\
    (100 <= 99 -> forall x, In x [1; 2] -> x <= v').
Proof.
  apply (percentiles_are_monotone (record_all Samples.two_latencies)
           "blockchain_latency_ms" [1; 2] 0 99).
  - vm_compute; reflexivity.
  - discriminate.
  - vm_compute; discriminate.
  - vm_compute; discriminate.
Defined.

End PercentileExtras.

(** ** The read cache and the quantisation of submitted values *)

Module ContractHandlerExtras.

Import ContractHandler.

(** X23.  The read cache never returns an entry whose age has reached
    the time to live of 60 seconds: a lookup returns the data of a
    younger entry and leaves the cache as it is, deletes an entry that
    has expired, and never touches another key.  A value that was set is
    returned by every lookup made less than 60 seconds later. *)
Theorem cache_never_returns_expired (A : Type) (call_cache : gmap string (CacheItem A))
    (key : string) (now : Q) :
  let result := fst (get_from_cache A call_cache key now) in
  let after := snd (get_from_cache A call_cache key now) in
  (forall data, result = Some data ->
     exists item, call_cache !! key = Some item /\ ci_data A item = data /\
                  now - ci_timestamp A item < 60 /\ after = call_cache) /\
  (result = None -> after !! key = None) /\
  (forall other, other <> key -> after !! other = call_cache !! other) /\
  (forall data set_at,
     now - set_at < 60 ->
     get_from_cache A (set_cache A call_cache key data set_at) key now
     = (Some data, set_cache A call_cache key data set_at)) /\
  (forall data set_at,
     60 <= now - set_at ->
     get_from_cache A (set_cache A call_cache key data set_at) key now
     = (None, delete key call_cache)).
Proof.
  cbv zeta. unfold get_from_cache, set_cache, cache_ttl.
  split; [| split; [| split; [| split]]].
  - intros data Hd. destruct (call_cache !! key) as [item |] eqn:E; [| discriminate].
    destruct (Py.Qlt_bool (now - ci_timestamp A item) 60) eqn:El; [| discriminate].
    simpl in Hd. injection Hd as <-. exists item.
    apply PyFacts.Qlt_bool_iff in El. now repeat split.
  - intros Hn. destruct (call_cache !! key) as [item |] eqn:E; [| exact E].
    destruct (Py.Qlt_bool (now - ci_timestamp A item) 60); [discriminate |].
    simpl. apply lookup_delete_eq.
  - intros other Hne. destruct (call_cache !! key) as [item |]; [| reflexivity].
    destruct (Py.Qlt_bool (now - ci_timestamp A item) 60); [reflexivity |].
    simpl. now apply lookup_delete_ne.
  - intros data set_at Hage. rewrite lookup_insert_eq. simpl.
    apply PyFacts.Qlt_bool_iff in Hage. now rewrite Hage.
  - intros data set_at Hage. rewrite lookup_insert_eq. simpl.
    destruct (Py.Qlt_bool (now - set_at) 60) eqn:El.
    + apply PyFacts.Qlt_bool_iff in El. lra.
    + now rewrite delete_insert_eq.
Qed.

Lemma int_truncates (x : Q) :
  (0 <= x -> (0 <= Py.int x)%Z /\ inject_Z (Py.int x) <= x /\ x < inject_Z (Py.int x) + 1) /\
  (x <= 0 -> (Py.int x <= 0)%Z /\ inject_Z (Py.int x) - 1 < x /\ x <= inject_Z (Py.int x)).
Proof.
  destruct x as [a b]. unfold Py.int, Qle, Qlt. simpl.
  pose proof (Z.quot_rem' a (Zpos b)) as Hqr.
  split; intros H.
  - assert (Ha : (0 <= a)%Z) by lia.
    pose proof (Z.rem_bound_pos a (Zpos b) Ha ltac:(lia)) as Hr.
    pose proof (Z.quot_pos a (Zpos b) Ha ltac:(lia)) as Hq.
    split; [exact Hq |]. split; nia.
  - assert (Ha : (a <= 0)%Z) by lia.
    pose proof (Z.rem_bound_pos_neg a (Zpos b) ltac:(lia) Ha) as Hr.
    assert (Hq : (a ÷ Zpos b <= 0)%Z).
    { rewrite <- (Z.opp_involutive a), Z.quot_opp_l by lia.
      pose proof (Z.quot_pos (- a) (Zpos b) ltac:(lia) ltac:(lia)). lia. }
    split; [exact Hq |]. split; nia.
Qed.

(** A finite float stands for a rational, the others for none. *)
Lemma to_Q_none (x : float) : PyFloat.to_Q x = None <-> is_finite x = false.
Proof.
  rewrite Binary64Facts.is_finite_spec. unfold PyFloat.to_Q.
  destruct (Prim2SF x) as [s | s | | s m e]; simpl; split; congruence.
Qed.

(** X24.  The integer submitted to the contract is the binary64 product
    [value * 100] truncated toward zero: [int] raises when that product
    is not-a-number or infinite, and otherwise the integer has the sign
    of the product, is never farther from zero and misses it by less
    than one.  The product is rounded before it is truncated, so the
    integer is not always the number of hundredths of the decimal
    reading: 16.4 is submitted as 1639, 0.59 as 59, and 1e308 raises. *)
Theorem quantize_truncates_rounded_product :
  (forall value : float,
     let product := (value * 100)%float in
     (quantize value = None <-> is_finite product = false) /\
     (forall q : Z, quantize value = Some q ->
        exists x : Q,
          PyFloat.to_Q product = Some x /\
          (0 <= x -> (0 <= q)%Z /\ inject_Z q <= x /\ x < inject_Z q + 1) /\
          (x <= 0 -> (q <= 0)%Z /\ inject_Z q - 1 < x /\ x <= inject_Z q) /\
          Qabs (x - inject_Z q) < 1)) /\
  quantize 16.4 = Some 1639%Z /\
  quantize 0.59 = Some 59%Z /\
  quantize (-16.4) = Some (-1639)%Z /\
  quantize 23.05 = Some 2305%Z /\
  quantize 1e308 = None /\
  quantize nan = None.
Proof.
  split; [| repeat split; vm_compute; reflexivity].
  intros value. cbv zeta. unfold quantize, PyFloat.int. split.
  - rewrite <- to_Q_none. destruct (PyFloat.to_Q (value * 100)); split; congruence.
  - intros q Hq. destruct (PyFloat.to_Q (value * 100)) as [x |]; [| discriminate].
    injection Hq as <-. exists x. split; [reflexivity |].
    destruct (int_truncates x) as [Hpos Hneg].
    split; [exact Hpos |]. split; [exact Hneg |].
    apply Qabs_Qlt_condition.
    destruct (Qlt_le_dec x 0) as [Hv | Hv].
    + destruct Hneg as (_ & H1 & H2); [lra |]. split; lra.
    + destruct Hpos as (_ & H1 & H2); [lra |]. split; lra.
Qed.

End ContractHandlerExtras.

(** ** The effect of one reputation update *)

Module ReputationUpdates.

Import Reputation ReputationFacts.

(** X25.  On a system reached by any sequence of calls, an update with a
    recognised event type moves only the score of its node, from the
    stored score (or the default for a new node) by the impact of the
    event, stopping at 0 and at 1: a positive impact never lowers the
    score, a negative one never raises it, and all other nodes keep
    their scores. *)
Theorem update_moves_only_its_node (calls : list call) (node_id event_type : string)
    (details : option (list (string * string))) (now : Z) (impact : Q) :
  initial_weights !! event_type = Some impact ->
  let self := run calls in
  let old := fst (get_reputation self node_id) in
  let self' := update_reputation self node_id event_type details now in
  exists r',
    node_reputations self' !! node_id = Some r' /\
    r' = Py.max 0 (Py.min 1 (old + impact)) /\
    (0 <= old + impact -> old + impact <= 1 -> r' == old + impact) /\
    (0 <= impact -> old <= r') /\
    (impact <= 0 -> r' <= old) /\
    (forall other, other <> node_id ->
       node_reputations self' !! other = node_reputations self !! other).
Proof.
  intros Hw. cbv zeta.
  pose proof (run_well_formed calls) as Hwf.
  pose proof (get_reputation_well_formed _ node_id Hwf) as Hwf1.
  assert (Hold : node_reputations (snd (get_reputation (run calls) node_id)) !! node_id
                 = Some (fst (get_reputation (run calls) node_id)) /\
                 forall other, other <> node_id ->
                   node_reputations (snd (get_reputation (run calls) node_id)) !! other
                   = node_reputations (run calls) !! other).
  { unfold get_reputation.
    destruct (node_reputations (run calls) !! node_id) eqn:E; simpl.
    - now split.
    - rewrite lookup_insert_eq. split; [reflexivity |].
      intros other Hne. now rewrite lookup_insert_ne. }
  destruct Hold as [Hold Hother].
  unfold update_reputation. rewrite (wf_weights _ Hwf), Hw.
  destruct (get_reputation (run calls) node_id) as [old self1]. simpl in *.
  destruct (wf_scores _ Hwf1 node_id old Hold) as [H0 H1].
  unfold clamp. rewrite (wf_min _ Hwf1), (wf_max _ Hwf1).
  eexists. split; [apply lookup_insert_eq |]. split; [reflexivity |].
  split; [| split; [| split]].
  - intros Ha Hb. now apply PyFacts.clamp_id.
  - intros Hi.
    destruct (Qlt_le_dec 1 (old + impact)) as [Hbig | Hsmall].
    + assert (E : Py.max 0 (Py.min 1 (old + impact)) == 1).
      { unfold Py.min. destruct (Py.Qlt_bool (old + impact) 1) eqn:El.
        - apply PyFacts.Qlt_bool_iff in El. lra.
        - reflexivity. }
      rewrite E. exact H1.
    + rewrite PyFacts.clamp_id; lra.
  - intros Hi.
    destruct (Qlt_le_dec (old + impact) 0) as [Hneg | Hpos].
    + rewrite StakesExtras.clamp_low; lra.
    + rewrite PyFacts.clamp_id; lra.
  - intros other Hne. rewrite lookup_insert_ne by congruence. now apply Hother.
Qed.

Lemma update_moves_only_its_node_example :
  let self := run [] in
  let old := fst (get_reputation self "node_1") in
  let self' := update_reputation self "node_1" "stake_slash" None 1700000000 in
  exists r',
    node_reputations self' !! "node_1"%string = Some r' /\
    r' = Py.max 0 (Py.min 1 (old + - (3 # 10))) /\
    (0 <= old + - (3 # 10) -> old + - (3 # 10) <= 1 -> r' == old + - (3 # 10)) /\
    (0 <= - (3 # 10) -> old <= r') /\
    (- (3 # 10) <= 0 -> r' <= old) /\
    (forall other, other <> "node_1"%string ->
       node_reputations self' !! other = node_reputations self !! other).
Proof.
  cbv zeta.
  apply (update_moves_only_its_node [] "node_1" "stake_slash" None 1700000000 (- (3 # 10))).
  vm_compute; reflexivity.
Defined.

End ReputationUpdates.
